(** * jira_agile_metrics.querymanager: a shallow embedding

    The module [querymanager.py] defines the value class [IssueSnapshot]
    and the class [QueryManager], whose methods resolve field names to
    JIRA field ids, read field values off an issue and replay an issue's
    changelog as a stream of snapshots.

    Python values are embedded as the inductive type [PyVal]; code that
    may raise returns a [result]; the generator [iter_changes] is embedded
    in a small monad that records what was yielded before the generator
    either finished or raised. *)

From Stdlib Require Import ZArith List String Ascii Bool Lia Sorted.
From Stdlib Require Import Floats.SpecFloat.
From stdpp Require Import base option list gmap strings sorting pretty.

Local Open Scope string_scope.
Local Open Scope Z_scope.

(** ** Exceptions and fallible code *)

(** The exception classes that the module raises or lets through.
    [ConfigError] is imported from [.config]; the others are builtins. *)
Inductive Exc : Type :=
| ConfigError (msg : string)
| AttributeError (attr : string)
| KeyError (k : string)
| TypeError
| ValueError
| OtherError (cls : string).

Inductive result (A : Type) : Type :=
| Ok (a : A)
| Raise (e : Exc).
Arguments Ok {A} a.
Arguments Raise {A} e.

#[global] Instance result_ret : MRet result := fun A a => Ok a.
#[global] Instance result_bind : MBind result := fun A B f m =>
  match m with
  | Ok a => f a
  | Raise e => Raise e
  end.

Definition is_TypeError (e : Exc) : bool :=
  match e with
  | TypeError => true
  | _ => false
  end.

(** ** Python values *)

(** An object is what the code can observe of it: its identity, its
    attributes, and what [__str__] does (return a string or raise).
    Floats carry their IEEE-754 value. *)
#[warnings="-register-all"]
Inductive PyVal : Type :=
| VNone
| VBool (b : bool)
| VInt (z : Z)
| VFloat (f : spec_float)
| VStr (s : string)
| VBytes (bs : list Byte.byte)
| VList (l : list PyVal)
| VTuple (l : list PyVal)
| VObj (oid : nat) (attrs : list (string * PyVal)) (dunder_str : result string).

(** [getattr(v, a, d)]: only objects carry the attributes [value] and
    [name] that the module probes; builtin values have neither. *)
Fixpoint assoc_lookup {V : Type} (a : string) (l : list (string * V)) : option V :=
  match l with
  | [] => None
  | (k, v) :: l' => if String.eqb k a then Some v else assoc_lookup a l'
  end.

Definition getattr_default (v : PyVal) (a : string) (d : PyVal) : PyVal :=
  match v with
  | VObj _ attrs _ =>
      match assoc_lookup a attrs with
      | Some x => x
      | None => d
      end
  | _ => d
  end.

(** [isinstance(value, (list, tuple))], with the elements. *)
Definition as_sequence (v : PyVal) : option (list PyVal) :=
  match v with
  | VList l => Some l
  | VTuple l => Some l
  | _ => None
  end.

(** [isinstance(value, (int, float, bool, str, bytes))] *)
Definition is_primitive (v : PyVal) : bool :=
  match v with
  | VBool _ | VInt _ | VFloat _ | VStr _ | VBytes _ => true
  | _ => false
  end.

(** *** Python's [==] on these values *)

(** An integer equals a float when the float's exact value is that
    integer. *)
Definition int_eq_float (z : Z) (f : spec_float) : bool :=
  match f with
  | S754_zero _ => z =? 0
  | S754_finite s m e =>
      let v := if s then Z.neg m else Z.pos m in
      if 0 <=? e then z =? v * 2 ^ e else z * 2 ^ (- e) =? v
  | _ => false
  end.

Definition bytes_eqb (a b : list Byte.byte) : bool :=
  String.eqb (string_of_list_byte a) (string_of_list_byte b).

(** [bool] is a subclass of [int]; numbers compare by value across
    [bool], [int] and [float]; objects compare by identity; values of
    unrelated types are unequal. *)
Fixpoint py_eq (a b : PyVal) : bool :=
  let fix seq_eq (l m : list PyVal) {struct l} : bool :=
    match l, m with
    | [], [] => true
    | x :: l', y :: m' => py_eq x y && seq_eq l' m'
    | _, _ => false
    end in
  match a, b with
  | VNone, VNone => true
  | VBool x, VBool y => Bool.eqb x y
  | VBool x, VInt y => Z.b2z x =? y
  | VInt x, VBool y => x =? Z.b2z y
  | VInt x, VInt y => x =? y
  | VBool x, VFloat y => int_eq_float (Z.b2z x) y
  | VFloat x, VBool y => int_eq_float (Z.b2z y) x
  | VInt x, VFloat y => int_eq_float x y
  | VFloat x, VInt y => int_eq_float y x
  | VFloat x, VFloat y => SFeqb x y
  | VStr x, VStr y => String.eqb x y
  | VBytes x, VBytes y => bytes_eqb x y
  | VList x, VList y => seq_eq x y
  | VTuple x, VTuple y => seq_eq x y
  | VObj i _ _, VObj j _ _ => Nat.eqb i j
  | _, _ => false
  end.

(** [x in values] for a list [values] *)
Definition py_in (x : PyVal) (values : list PyVal) : bool :=
  existsb (fun y => py_eq y x) values.

(** ** Timestamps *)

(** A [datetime] is an instant (microseconds since the epoch) together
    with the UTC offset (seconds) of the zone it is expressed in.
    [astimezone(tzutc())] keeps the instant and moves to offset 0; a
    [datetime] parsed without zone information stands for local time, and
    its [instant] is the one [astimezone] assigns to it. Instants so close
    to the ends of the range of [datetime] that the conversion overflows
    are left out. *)
Record datetime : Type := mk_datetime { instant : Z; utcoffset : Z }.

Definition astimezone_utc (d : datetime) : datetime :=
  {| instant := instant d; utcoffset := 0 |}.

(** [a <= b] on aware datetimes compares instants. *)
Definition datetime_le (a b : datetime) : Prop := instant a <= instant b.

(** ** The library functions the module calls

    [str.lower], [dateutil.parser.parse], [datetime.isoformat] and
    [str()] of a list or tuple are not part of this repository. *)
Class PyRuntime : Type := {
  str_lower : string -> string;
  dateutil_parse : string -> result datetime;
  isoformat : datetime -> string;
  sequence_str : PyVal -> result string
}.

(** [str(v)] for a value that is not a primitive. *)
Definition py_str `{PyRuntime} (v : PyVal) : result string :=
  match v with
  | VNone => Ok "None"
  | VObj _ _ dunder_str => dunder_str
  | _ => sequence_str v
  end.

(** ** Snapshots *)

(** [class IssueSnapshot]: the attributes set by [__init__]. *)
Record IssueSnapshot : Type := mk_IssueSnapshot {
  change : string;
  key : string;
  date : datetime;
  from_string : PyVal;
  to_string : PyVal
}.

(** [IssueSnapshot.__init__]: the date is stored converted to UTC. *)
Definition IssueSnapshot_init (change key : string) (date : datetime)
    (from_string to_string : PyVal) : IssueSnapshot :=
  {| change := change;
     key := key;
     date := astimezone_utc date;
     from_string := from_string;
     to_string := to_string |}.

(** [IssueSnapshot.__eq__]: [all] of the five comparisons. *)
Definition IssueSnapshot_eq `{PyRuntime} (self other : IssueSnapshot) : bool :=
  forallb (fun b : bool => b)
    [ String.eqb (change self) (change other);
      String.eqb (key self) (key other);
      String.eqb (isoformat (date self)) (isoformat (date other));
      py_eq (from_string self) (from_string other);
      py_eq (to_string self) (to_string other) ].

(** ** Issues as the JIRA client returns them *)

(** One entry of a changelog history: [item.field], [item.fromString],
    [item.toString]. *)
Record ChangeItem : Type := mk_ChangeItem {
  field : string;
  fromString : PyVal;
  toString : PyVal
}.

(** One changelog history: [change.created], [change.items]. *)
Record History : Type := mk_History {
  h_created : string;
  items : list ChangeItem
}.

(** [issue.fields]: the attribute [created] and the attributes named by
    field ids. *)
Record IssueFields : Type := mk_IssueFields {
  created : string;
  field_attrs : gmap string PyVal
}.

(** [issue.key], [issue.fields], [issue.changelog.histories] *)
Record Issue : Type := mk_Issue {
  issue_key : string;
  issue_fields : IssueFields;
  histories : list History
}.

(** [getattr(issue.fields, field_id)]: raises [AttributeError] when the
    object has no such attribute. *)
Definition getattr_fields (fs : IssueFields) (field_id : string) : result PyVal :=
  if String.eqb field_id "created" then Ok (VStr (created fs))
  else match field_attrs fs !! field_id with
       | Some v => Ok v
       | None => Raise (AttributeError field_id)
       end.

(** ** The query manager *)

(** An entry of [jira.fields()]: [f['id']] and [f['name']]. *)
Record JiraField : Type := mk_JiraField {
  f_id : string;
  f_name : string
}.

(** The [jira] client, as far as [__init__] uses it. *)
Record Jira : Type := mk_Jira {
  jira_fields_response : list JiraField
}.

(** Modelled from the spec: the settings dictionary. Its keys and the
    types of their values come from the configuration loader, which is
    not in this module: [attributes] maps an attribute name to a JIRA
    field name (in insertion order), [known_values] maps an attribute
    name to an ordered list of strings, [max_results] is a number or
    [False]. *)
Record Settings : Type := mk_Settings {
  attributes : list (string * string);
  known_values : gmap string (list string);
  max_results : option Z
}.

(** The class attribute [QueryManager.settings]. *)
Definition default_settings : Settings :=
  {| attributes := [];
     known_values := ∅;
     max_results := None |}.

(** The [settings] argument of [__init__]: a dictionary that may leave
    keys out. *)
Record SettingsArg : Type := mk_SettingsArg {
  arg_attributes : option (list (string * string));
  arg_known_values : option (gmap string (list string));
  arg_max_results : option (option Z)
}.

(** [self.settings.copy()] followed by [.update(settings)] *)
Definition settings_update (base : Settings) (arg : SettingsArg) : Settings :=
  {| attributes := default (attributes base) (arg_attributes arg);
     known_values := default (known_values base) (arg_known_values arg);
     max_results := default (max_results base) (arg_max_results arg) |}.

Record QueryManager : Type := mk_QueryManager {
  jira : Jira;
  settings : Settings;
  attributes_to_fields : gmap string string;
  fields_to_attributes : gmap string string;
  jira_fields : list JiraField
}.

Section Methods.
Context `{PyRuntime}.

(** The test in the generator expression of [field_name_to_id]:
    [f['name'].lower() == name.lower()]. *)
Definition name_matches (name : string) (f : JiraField) : Prop :=
  str_lower (f_name f) = str_lower name.

(** [QueryManager.field_name_to_id] *)
Definition field_name_to_id (self : QueryManager) (name : string) : result string :=
  match find (fun f => String.eqb (str_lower (f_name f)) (str_lower name))
             (jira_fields self) with
  | Some f => Ok (f_id f)
  | None =>
      Raise (ConfigError ("JIRA field with name `" ++ name ++
        "` does not exist (did you try to use the field id instead?)"))
  end.

(** The body of the loop of [__init__], for one item of
    [settings['attributes']]. *)
Definition init_attribute (self : QueryManager) (item : string * string)
    : result QueryManager :=
  let '(name, field) := item in
  field_id ← field_name_to_id self field;
  mret {| jira := jira self;
          settings := settings self;
          attributes_to_fields := <[name := field_id]> (attributes_to_fields self);
          fields_to_attributes := <[field_id := name]> (fields_to_attributes self);
          jira_fields := jira_fields self |}.

Fixpoint init_attributes (self : QueryManager) (l : list (string * string))
    : result QueryManager :=
  match l with
  | [] => mret self
  | item :: l' => self' ← init_attribute self item; init_attributes self' l'
  end.

(** [QueryManager.__init__] *)
Definition QueryManager_init (jira : Jira) (settings : SettingsArg)
    : result QueryManager :=
  let settings := settings_update default_settings settings in
  let self := {| jira := jira;
                 settings := settings;
                 attributes_to_fields := ∅;
                 fields_to_attributes := ∅;
                 jira_fields := jira_fields_response jira |} in
  init_attributes self (attributes settings).

(** Lines 91-105 of [resolve_field_value]: what a list or tuple is
    reduced to. *)
Definition pick_value (self : QueryManager) (field_id : string)
    (value : list PyVal) : PyVal :=
  if Nat.eqb (length value) 0 then VNone
  else
    let values := map (fun v => getattr_default v "name" v) value in
    let attribute_name := fields_to_attributes self !! field_id in
    match attribute_name ≫= (fun a => known_values (settings self) !! a) with
    | None => nth 0 values VNone
    | Some known =>
        match find (fun v => py_in (VStr v) values) known with
        | Some v => VStr v
        | None => VNone
        end
    end.

(** Lines 107-113 of [resolve_field_value]: [str(value)] unless the
    value is a primitive; only [TypeError] is caught. *)
Definition coerce (value : PyVal) : result PyVal :=
  if is_primitive value then Ok value
  else
    match py_str value with
    | Ok s => Ok (VStr s)
    | Raise e => if is_TypeError e then Ok value else Raise e
    end.

(** Lines 89-105 of [resolve_field_value]: unwrap [.value], then reduce
    a list or tuple. *)
Definition select_value (self : QueryManager) (field_id : string)
    (field_value : PyVal) : PyVal :=
  let value := getattr_default field_value "value" field_value in
  match as_sequence value with
  | Some l => pick_value self field_id l
  | None => value
  end.

(** [QueryManager.resolve_field_value] *)
Definition resolve_field_value (self : QueryManager) (issue : Issue)
    (field_id : string) : result PyVal :=
  field_value ← getattr_fields (issue_fields issue) field_id;
  match field_value with
  | VNone => mret VNone
  | _ => coerce (select_value self field_id field_value)
  end.

(** [QueryManager.resolve_attribute_value] *)
Definition resolve_attribute_value (self : QueryManager) (issue : Issue)
    (attribute_name : string) : result PyVal :=
  match attributes_to_fields self !! attribute_name with
  | None => Raise (KeyError attribute_name)
  | Some field_id => resolve_field_value self issue field_id
  end.

End Methods.

(** ** Generators *)

(** A run of a generator to its end: the snapshots it yielded, in order,
    and how it ended ([Ok]: the body returned; [Raise e]: the body raised
    [e] after yielding these). *)
Record Gen (A : Type) : Type := mk_Gen {
  yielded : list IssueSnapshot;
  outcome : result A
}.
Arguments mk_Gen {A} yielded outcome.
Arguments yielded {A} g.
Arguments outcome {A} g.

#[global] Instance Gen_ret : MRet Gen := fun A a => mk_Gen [] (Ok a).
#[global] Instance Gen_bind : MBind Gen := fun A B f m =>
  match outcome m with
  | Ok a => mk_Gen (yielded m ++ yielded (f a)) (outcome (f a))
  | Raise e => mk_Gen (yielded m) (Raise e)
  end.

(** [yield s] *)
Definition yield (s : IssueSnapshot) : Gen unit := mk_Gen [s] (Ok tt).

(** An expression that may raise, evaluated inside the generator. *)
Definition eval {A : Type} (r : result A) : Gen A := mk_Gen [] r.

(** [for x in l: body] *)
Fixpoint for_each {X : Type} (l : list X) (body : X -> Gen unit) : Gen unit :=
  match l with
  | [] => mret tt
  | x :: l' => body x ;; for_each l' body
  end.

Section IterChanges.
Context `{PyRuntime}.

(** [itertools.chain.from_iterable([c.items for c in issue.changelog.histories])] *)
Definition chain_items (issue : Issue) : list ChangeItem :=
  concat (map items (histories issue)).

(** [item.field in fields] *)
Definition tracked (fields : list string) (item : ChangeItem) : bool :=
  existsb (fun f => String.eqb f (field item)) fields.

(** The body of the first loop of [iter_changes]. *)
Definition initial_snapshot (self : QueryManager) (issue : Issue) (field_name : string)
    : Gen unit :=
  initial_value ← eval (field_id ← field_name_to_id self field_name;
                        resolve_field_value self issue field_id);
  let initial_value :=
    match find (fun h => String.eqb (field h) field_name) (chain_items issue) with
    | Some h => fromString h
    | None => initial_value
    end in
  created_date ← eval (dateutil_parse (created (issue_fields issue)));
  yield (IssueSnapshot_init field_name (issue_key issue) created_date VNone initial_value).

(** The body of the second loop of [iter_changes]. *)
Definition history_snapshots (issue : Issue) (fields : list string) (change : History)
    : Gen unit :=
  change_date ← eval (dateutil_parse (h_created change));
  for_each (items change) (fun item =>
    if tracked fields item
    then yield (IssueSnapshot_init (field item) (issue_key issue) change_date
                  (fromString item) (toString item))
    else mret tt).

(** [QueryManager.iter_changes] *)
Definition iter_changes (self : QueryManager) (issue : Issue) (fields : list string)
    : Gen unit :=
  for_each fields (initial_snapshot self issue) ;;
  for_each (histories issue) (history_snapshots issue fields).

End IterChanges.

(** ** Vocabulary of the specification

    The predicates below follow the words of the specification; the
    theorems relate them to the definitions above. *)

Section Vocabulary.
Context `{PyRuntime}.

(** [item] is the first changelog item for field [f], scanning the
    histories in their given order and the items of each in order. *)
Definition first_change_of (issue : Issue) (f : string) (item : ChangeItem) : Prop :=
  exists hs1 h hs2 is1 is2,
    histories issue = (hs1 ++ h :: hs2)%list /\
    items h = (is1 ++ item :: is2)%list /\
    field item = f /\
    Forall (fun h' => Forall (fun x => field x <> f) (items h')) hs1 /\
    Forall (fun x => field x <> f) is1.

(** No changelog item anywhere is for field [f]. *)
Definition never_changed (issue : Issue) (f : string) : Prop :=
  Forall (fun h => Forall (fun x => field x <> f) (items h)) (histories issue).

(** The current value of the field named [f], as [iter_changes] asks for
    it: the name is resolved to an id, then the value is read. *)
Definition current_value (self : QueryManager) (issue : Issue) (f : string)
    : result PyVal :=
  field_id ← field_name_to_id self f; resolve_field_value self issue field_id.

(** [s] is the initial snapshot of field [f]. *)
Definition initial_snapshot_of (self : QueryManager) (issue : Issue) (f : string)
    (s : IssueSnapshot) : Prop :=
  change s = f /\
  key s = issue_key issue /\
  (exists d, dateutil_parse (created (issue_fields issue)) = Ok d /\
             date s = astimezone_utc d) /\
  from_string s = VNone /\
  (forall item, first_change_of issue f item -> to_string s = fromString item) /\
  (never_changed issue f -> current_value self issue f = Ok (to_string s)).

(** The tracked changelog items, each with the history it belongs to,
    in changelog order. *)
Definition tracked_changes (issue : Issue) (fields : list string)
    : list (History * ChangeItem) :=
  flat_map (fun h => map (fun item => (h, item)) (List.filter (tracked fields) (items h)))
           (histories issue).


(** The timestamps of the histories that parse are non-decreasing in
    changelog order. *)
Definition timestamps_nondecreasing (issue : Issue) : Prop :=
  StronglySorted
    (fun h1 h2 => forall d1 d2,
       dateutil_parse (h_created h1) = Ok d1 ->
       dateutil_parse (h_created h2) = Ok d2 -> datetime_le d1 d2)
    (histories issue).

(** The dates of a sequence of snapshots are non-decreasing. *)
Definition dates_nondecreasing (l : list IssueSnapshot) : Prop :=
  StronglySorted (fun s1 s2 => datetime_le (date s1) (date s2)) l.



(** A value as the changelog carries it: a string or [None]. *)
Definition textual (v : PyVal) : Prop :=
  v = VNone \/ exists s, v = VStr s.

End Vocabulary.

(** The issue with the changelog items of fields outside [fields]
    removed; the histories themselves stay. *)
Definition without_untracked (fields : list string) (issue : Issue) : Issue :=
  {| issue_key := issue_key issue;
     issue_fields := issue_fields issue;
     histories :=
       map (fun h => {| h_created := h_created h;
                        items := List.filter (tracked fields) (items h) |})
           (histories issue) |}.

(** ** Printing a snapshot *)

Section Repr.
Context `{PyRuntime}.

(** [str()] of a [bool], [int], [float] or [bytes]: a builtin that
    always returns. *)
Variable primitive_str : PyVal -> string.

(** What [%s] makes of a value: [str(v)]. *)
Definition format_s (v : PyVal) : result string :=
  match v with
  | VStr s => Ok s
  | VBool _ | VInt _ | VFloat _ | VBytes _ => Ok (primitive_str v)
  | _ => py_str v
  end.

(** [IssueSnapshot.__repr__] *)
Definition IssueSnapshot_repr (self : IssueSnapshot) : result string :=
  from_text ← format_s (from_string self);
  to_text ← format_s (to_string self);
  mret ("<IssueSnapshot change=" ++ change self ++ " key=" ++ key self ++
        " date=" ++ isoformat (date self) ++ " from=" ++ from_text ++
        " to=" ++ to_text ++ ">").

End Repr.

(** ** Sample data

    A runtime, a field directory, settings and issues on which the
    definitions above can be evaluated. *)

Definition ascii_lower (c : ascii) : ascii :=
  let n := nat_of_ascii c in
  if ((65 <=? n) && (n <=? 90))%nat then ascii_of_nat (n + 32) else c.

Fixpoint lower_ascii (s : string) : string :=
  match s with
  | EmptyString => EmptyString
  | String c s' => String (ascii_lower c) (lower_ascii s')
  end.

(** The timestamps that the sample runtime can parse. *)
Definition sample_timestamps : list (string * datetime) :=
  [ ("2020-01-01T00:00:00Z", mk_datetime 1577836800000000 0);
    ("2020-01-02T00:00:00Z", mk_datetime 1577923200000000 0);
    ("2020-01-03T09:30:00+01:00", mk_datetime 1578040200000000 3600) ].

Definition sample_parse (s : string) : result datetime :=
  match assoc_lookup s sample_timestamps with
  | Some d => Ok d
  | None => Raise ValueError
  end.

Definition digit (n : Z) : string :=
  String (ascii_of_nat (48 + Z.to_nat (n mod 10))) EmptyString.

Fixpoint zero_padded (width : nat) (n : Z) : string :=
  match width with
  | O => EmptyString
  | S w => zero_padded w (n / 10) ++ digit n
  end.

(** Year, month and day of a day number counted from 1970-01-01 in the
    proleptic Gregorian calendar. *)
Definition civil_from_days (days : Z) : Z * Z * Z :=
  let z := days + 719468 in
  let era := z / 146097 in
  let doe := z - era * 146097 in
  let yoe := (doe - doe / 1460 + doe / 36524 - doe / 146096) / 365 in
  let doy := doe - (365 * yoe + yoe / 4 - yoe / 100) in
  let mp := (5 * doy + 2) / 153 in
  let d := doy - (153 * mp + 2) / 5 + 1 in
  let m := if mp <? 10 then mp + 3 else mp - 9 in
  let y := yoe + era * 400 + (if m <=? 2 then 1 else 0) in
  (y, m, d).

(** [YYYY-MM-DDTHH:MM:SS[.ffffff]+HH:MM] in the zone of the datetime. *)
Definition sample_isoformat (d : datetime) : string :=
  let wall := instant d + utcoffset d * 1000000 in
  let us_of_day := wall mod 86400000000 in
  let '(year, month, day) := civil_from_days (wall / 86400000000) in
  let secs := us_of_day / 1000000 in
  let us := us_of_day mod 1000000 in
  let off := Z.abs (utcoffset d) in
  zero_padded 4 year ++ "-" ++ zero_padded 2 month ++ "-" ++ zero_padded 2 day ++ "T" ++
  zero_padded 2 (secs / 3600) ++ ":" ++ zero_padded 2 (secs / 60 mod 60) ++ ":" ++
  zero_padded 2 (secs mod 60) ++
  (if us =? 0 then "" else "." ++ zero_padded 6 us) ++
  (if utcoffset d <? 0 then "-" else "+") ++
  zero_padded 2 (off / 3600) ++ ":" ++ zero_padded 2 (off / 60 mod 60) ++
  (if off mod 60 =? 0 then "" else ":" ++ zero_padded 2 (off mod 60)).

Definition sample_runtime : PyRuntime :=
  {| str_lower := lower_ascii;
     dateutil_parse := sample_parse;
     isoformat := sample_isoformat;
     sequence_str := fun _ => Ok "[...]" |}.

Definition sample_jira : Jira :=
  {| jira_fields_response :=
       [ mk_JiraField "status" "Status";
         mk_JiraField "issuetype" "Issue Type";
         mk_JiraField "labels" "Labels";
         mk_JiraField "fixVersions" "Fix Version/s";
         mk_JiraField "customfield_10001" "Team";
         mk_JiraField "customfield_10002" "Story Points" ] |}.

Definition sample_settings : SettingsArg :=
  {| arg_attributes :=
       Some [ ("Team", "team"); ("Type", "Issue type"); ("Tags", "Labels");
              ("Release", "fix version/s") ];
     arg_known_values :=
       Some {[ "Type" := [ "Feature"; "Bug" ]; "Release" := [ "R2"; "R3" ] ]};
     arg_max_results := None |}.

(** The manager that [QueryManager_init sample_jira sample_settings]
    builds. *)
Definition sample_manager : QueryManager :=
  {| jira := sample_jira;
     settings := settings_update default_settings sample_settings;
     attributes_to_fields :=
       {[ "Team" := "customfield_10001"; "Type" := "issuetype"; "Tags" := "labels";
          "Release" := "fixVersions" ]};
     fields_to_attributes :=
       {[ "customfield_10001" := "Team"; "issuetype" := "Type"; "labels" := "Tags";
          "fixVersions" := "Release" ]};
     jira_fields := jira_fields_response sample_jira |}.

(** Settings that name a field the directory does not have. *)
Definition unknown_field_settings : SettingsArg :=
  {| arg_attributes := Some [ ("Team", "Team"); ("Points", "Story Pts") ];
     arg_known_values := None;
     arg_max_results := None |}.

(** An object whose [__str__] raises [ValueError]. *)
Definition stubborn_object : PyVal := VObj 7 [] (Raise ValueError).

(** An object whose [__str__] returns something that is not a string, so
    that [str()] raises [TypeError]. *)
Definition unprintable_object : PyVal := VObj 8 [] (Raise TypeError).

Definition sample_fields : IssueFields :=
  {| created := "2020-01-01T00:00:00Z";
     field_attrs :=
       {[ "status" := VObj 1 [ ("name", VStr "Done") ] (Ok "Done");
          "issuetype" := VList [ VStr "Bug"; VStr "Feature" ];
          "labels" := VList [];
          "fixVersions" := VList [ VObj 4 [ ("name", VStr "R1") ] (Ok "R1") ];
          "customfield_10001" := VObj 2 [ ("value", VStr "Team 1") ] (Ok "Team 1");
          "customfield_10003" := VNone;
          "customfield_10004" := stubborn_object;
          "customfield_10005" := unprintable_object;
          "components" := VList [ VObj 3 [ ("name", VStr "Docs") ] (Ok "Docs") ] ]} |}.

(** An issue whose changelog is empty. *)
Definition issue_unchanged : Issue :=
  {| issue_key := "ISSUE-1";
     issue_fields := sample_fields;
     histories := [] |}.

(** The same issue after two edits; the second history also records a
    change of a field that nobody tracks. *)
Definition issue_changed : Issue :=
  {| issue_key := "ISSUE-1";
     issue_fields := sample_fields;
     histories :=
       [ mk_History "2020-01-02T00:00:00Z"
           [ mk_ChangeItem "status" (VStr "To Do") (VStr "In Progress") ];
         mk_History "2020-01-03T09:30:00+01:00"
           [ mk_ChangeItem "assignee" VNone (VStr "ann");
             mk_ChangeItem "status" (VStr "In Progress") (VStr "Done") ] ] |}.

(** [issue_unchanged] with the elements of [issuetype] in the other
    order. *)
Definition issue_reordered : Issue :=
  {| issue_key := "ISSUE-1";
     issue_fields :=
       {| created := created sample_fields;
          field_attrs :=
            <[ "issuetype" := VList [ VStr "Feature"; VStr "Bug" ] ]>
              (field_attrs sample_fields) |};
     histories := [] |}.


(** [str()] of booleans and integers; the sample issues hold no floats
    and no bytes, which print as a placeholder here. *)
Definition sample_primitive_str (v : PyVal) : string :=
  match v with
  | VBool true => "True"
  | VBool false => "False"
  | VInt z => pretty z
  | _ => "..."
  end.

(** The initial snapshot of [status] on [issue_changed]. *)
Definition sample_initial_snapshot : IssueSnapshot :=
  {| change := "status";
     key := "ISSUE-1";
     date := mk_datetime 1577836800000000 0;
     from_string := VNone;
     to_string := VStr "To Do" |}.

(** The same snapshot built from a timestamp in another zone: the same
    instant, one hour east of UTC. *)
Definition sample_initial_snapshot_east : IssueSnapshot :=
  IssueSnapshot_init "status" "ISSUE-1" (mk_datetime 1577836800000000 3600)
    VNone (VStr "To Do").

(** * Properties *)

Local Open Scope list_scope.

(** ** Searching a list for its first match *)

Lemma find_Some_split {A : Type} (p : A -> bool) (l : list A) (x : A) :
  find p l = Some x ->
  exists pre post, l = pre ++ x :: post /\ p x = true /\ Forall (fun y => p y = false) pre.
Proof.
  induction l as [|a l IH]; simpl; [discriminate|].
  destruct (p a) eqn:Ha.
  - intros [= ->]. exists [], l. auto.
  - intros Hf. destruct (IH Hf) as (pre & post & -> & Hx & Hpre).
    exists (a :: pre), post. auto.
Qed.

Lemma find_None_Forall {A : Type} (p : A -> bool) (l : list A) :
  find p l = None -> Forall (fun y => p y = false) l.
Proof.
  induction l as [|a l IH]; simpl; [constructor|].
  destruct (p a) eqn:Ha; [discriminate|]. auto.
Qed.

Lemma find_first {A : Type} (p : A -> bool) (pre post : list A) (x : A) :
  Forall (fun y => p y = false) pre -> p x = true -> find p (pre ++ x :: post) = Some x.
Proof.
  induction 1 as [|a pre Ha _ IH]; simpl; intros Hx.
  - now rewrite Hx.
  - rewrite Ha. auto.
Qed.

Lemma find_no_match {A : Type} (p : A -> bool) (l : list A) :
  Forall (fun y => p y = false) l -> find p l = None.
Proof.
  induction 1 as [|a l Ha _ IH]; simpl; [reflexivity|]. now rewrite Ha.
Qed.

Lemma result_bind_Ok {A B : Type} (m : result A) (f : A -> result B) (b : B) :
  m ≫= f = Ok b -> exists a, m = Ok a /\ f a = Ok b.
Proof. destruct m as [a|e]; [eauto | discriminate]. Qed.

Section FieldDirectory.
Context `{PyRuntime}.

Lemma field_name_to_id_found (self : QueryManager) (name fid : string) :
  field_name_to_id self name = Ok fid ->
  exists pre f post,
    jira_fields self = pre ++ f :: post /\ f_id f = fid /\ name_matches name f /\
    Forall (fun g => ~ name_matches name g) pre.
Proof.
  unfold field_name_to_id, name_matches.
  destruct (find _ (jira_fields self)) as [f|] eqn:Hfind; [|discriminate].
  intros [= <-].
  destruct (find_Some_split _ _ _ Hfind) as (pre & post & Hl & Hf & Hpre).
  exists pre, f, post. repeat split; auto.
  - now apply String.eqb_eq.
  - eapply Forall_impl; [exact Hpre|]. intros g Hg. now apply String.eqb_neq.
Qed.

Lemma field_name_to_id_missing (self : QueryManager) (name : string) :
  (forall f, In f (jira_fields self) -> ~ name_matches name f) ->
  field_name_to_id self name =
    Raise (ConfigError ("JIRA field with name `" ++ name ++
      "` does not exist (did you try to use the field id instead?)")%string).
Proof.
  intros Hno. unfold field_name_to_id.
  rewrite find_no_match; [reflexivity|].
  apply List.Forall_forall. intros f Hf. apply String.eqb_neq. now apply Hno.
Qed.

Lemma field_name_to_id_present (self : QueryManager) (name : string) (f : JiraField) :
  In f (jira_fields self) -> name_matches name f ->
  exists fid, field_name_to_id self name = Ok fid.
Proof.
  intros Hin Hm. unfold field_name_to_id.
  destruct (find _ (jira_fields self)) as [g|] eqn:Hfind; [eauto|].
  apply find_None_Forall in Hfind.
  rewrite List.Forall_forall in Hfind. specialize (Hfind f Hin).
  apply String.eqb_neq in Hfind. contradiction.
Qed.

(** The loop of [__init__] leaves the directory and the settings alone. *)
Lemma init_attributes_frame (l : list (string * string)) (self self' : QueryManager) :
  init_attributes self l = Ok self' ->
  jira_fields self' = jira_fields self /\ settings self' = settings self.
Proof.
  revert self. induction l as [|[name fld] l IH]; simpl; intros self.
  - intros [= <-]. auto.
  - intros Hrun. apply result_bind_Ok in Hrun as (self1 & H1 & Hrest).
    unfold init_attribute in H1.
    apply result_bind_Ok in H1 as (fid & _ & [= <-]).
    apply IH in Hrest as [-> ->]. auto.
Qed.

(** The loop stops at the first attribute whose field is unknown. *)
Lemma init_attributes_unknown (l : list (string * string)) (self : QueryManager)
    (attr fld : string) :
  In (attr, fld) l ->
  (forall f, In f (jira_fields self) -> ~ name_matches fld f) ->
  exists msg, init_attributes self l = Raise (ConfigError msg).
Proof.
  revert self. induction l as [|[a0 f0] l IH]; simpl; intros self Hin Hno; [contradiction|].
  unfold init_attribute.
  destruct (field_name_to_id self f0) as [fid|e] eqn:Hf0; simpl.
  - destruct Hin as [[= -> ->]|Hin].
    + rewrite field_name_to_id_missing in Hf0 by assumption. discriminate.
    + apply IH; auto.
  - unfold field_name_to_id in Hf0.
    destruct (find _ (jira_fields self)); [discriminate|].
    injection Hf0 as <-. eauto.
Qed.

(** After [__init__], the keys of [attributes_to_fields] are the
    configured attribute names. *)
Lemma init_attributes_keys (l : list (string * string)) (self self' : QueryManager)
    (a : string) :
  init_attributes self l = Ok self' ->
  attributes_to_fields self' !! a = None <->
  attributes_to_fields self !! a = None /\ ~ In a (map fst l).
Proof.
  revert self. induction l as [|[name fld] l IH]; simpl; intros self.
  - intros [= <-]. tauto.
  - intros Hrun. apply result_bind_Ok in Hrun as (self1 & H1 & Hrest).
    unfold init_attribute in H1.
    apply result_bind_Ok in H1 as (fid & _ & [= <-]).
    rewrite (IH _ Hrest). simpl.
    destruct (decide (name = a)) as [->|Hne].
    + rewrite lookup_insert_eq. split; [intros [[=] _] | intros [_ []]; auto].
    + rewrite lookup_insert_ne by assumption. tauto.
Qed.

End FieldDirectory.

Section FieldDirectoryClaims.
Context `{PyRuntime}.

(** C7. [field_name_to_id] returns the id of the first directory entry
    whose name equals the given name after lower-casing both; it
    succeeds whenever some entry matches, and raises [ConfigError] when
    none does. When the field name configured for some attribute matches
    no directory entry, [__init__] raises [ConfigError]: no manager, and
    so no attribute map, is built. *)
Theorem field_name_to_id_case_insensitive
    (self : QueryManager) (name : string) (jira : Jira) (arg : SettingsArg) :
  (forall fid, field_name_to_id self name = Ok fid ->
     exists pre f post,
       jira_fields self = pre ++ f :: post /\ f_id f = fid /\ name_matches name f /\
       Forall (fun g => ~ name_matches name g) pre) /\
  ((exists f, In f (jira_fields self) /\ name_matches name f) ->
     exists fid, field_name_to_id self name = Ok fid) /\
  ((forall f, In f (jira_fields self) -> ~ name_matches name f) ->
     exists msg, field_name_to_id self name = Raise (ConfigError msg)) /\
  ((exists attr, In (attr, name) (attributes (settings_update default_settings arg))) ->
   (forall f, In f (jira_fields_response jira) -> ~ name_matches name f) ->
     exists msg, QueryManager_init jira arg = Raise (ConfigError msg)).
Proof.
  split; [|split; [|split]].
  - apply field_name_to_id_found.
  - intros (f & Hin & Hm). eapply field_name_to_id_present; eauto.
  - intros Hno. rewrite field_name_to_id_missing by assumption. eauto.
  - intros [attr Hin] Hno. unfold QueryManager_init.
    eapply init_attributes_unknown; [exact Hin|exact Hno].
Qed.

(** C10. After construction, an attribute name that is not a key of the
    configured [attributes] mapping makes [resolve_attribute_value] raise
    [KeyError]; it does not return [None]. *)
Theorem resolve_attribute_value_unconfigured
    (jira : Jira) (arg : SettingsArg) (self : QueryManager) (issue : Issue)
    (attribute_name : string) :
  QueryManager_init jira arg = Ok self ->
  ~ In attribute_name (map fst (attributes (settings self))) ->
  resolve_attribute_value self issue attribute_name = Raise (KeyError attribute_name).
Proof.
  unfold QueryManager_init. intros Hinit Hnot.
  pose proof (init_attributes_frame _ _ _ Hinit) as [_ Hset].
  simpl in Hset. rewrite Hset in Hnot.
  pose proof (proj2 (init_attributes_keys _ _ _ attribute_name Hinit)) as Hkey.
  unfold resolve_attribute_value. rewrite Hkey; [reflexivity|].
  split; [apply lookup_empty|exact Hnot].
Qed.

End FieldDirectoryClaims.

Lemma sample_manager_init :
  QueryManager_init (H := sample_runtime) sample_jira sample_settings = Ok sample_manager.
Proof. vm_compute. reflexivity. Qed.

(** The configured field name [Story Pts] has no directory entry:
    construction fails. *)
Lemma field_name_to_id_case_insensitive_witness :
  exists msg,
    QueryManager_init (H := sample_runtime) sample_jira unknown_field_settings
    = Raise (ConfigError msg).
Proof.
  apply (proj2 (proj2 (proj2
    (field_name_to_id_case_insensitive (H := sample_runtime)
       sample_manager "Story Pts" sample_jira unknown_field_settings)))).
  - exists "Points". simpl. auto.
  - simpl. intros f Hf. unfold name_matches.
    repeat (destruct Hf as [<-|Hf]; [vm_compute; discriminate|]). destruct Hf.
Defined.

(** [Priority] is not a configured attribute of the sample manager. *)
Lemma resolve_attribute_value_unconfigured_witness :
  resolve_attribute_value (H := sample_runtime) sample_manager issue_unchanged "Priority"
  = Raise (KeyError "Priority").
Proof.
  apply (resolve_attribute_value_unconfigured (H := sample_runtime)
           sample_jira sample_settings).
  - vm_compute. reflexivity.
  - vm_compute. intuition discriminate.
Defined.

(** ** Resolving a field value *)

Section FieldValue.
Context `{PyRuntime}.

Lemma getattr_fields_present (fs : IssueFields) (field_id : string) (v : PyVal) :
  field_id <> "created"%string -> field_attrs fs !! field_id = Some v ->
  getattr_fields fs field_id = Ok v.
Proof.
  intros Hne Hv. unfold getattr_fields.
  apply String.eqb_neq in Hne. now rewrite Hne, Hv.
Qed.

Lemma getattr_fields_absent (fs : IssueFields) (field_id : string) :
  field_id <> "created"%string -> field_attrs fs !! field_id = None ->
  getattr_fields fs field_id = Raise (AttributeError field_id).
Proof.
  intros Hne Hv. unfold getattr_fields.
  apply String.eqb_neq in Hne. now rewrite Hne, Hv.
Qed.

(** Past the test for [None], the method is [coerce] after
    [select_value]. *)
Lemma resolve_field_value_unfold (self : QueryManager) (issue : Issue)
    (field_id : string) (field_value : PyVal) :
  getattr_fields (issue_fields issue) field_id = Ok field_value ->
  field_value <> VNone ->
  resolve_field_value self issue field_id = coerce (select_value self field_id field_value).
Proof.
  intros Hget Hnn. unfold resolve_field_value. rewrite Hget. simpl.
  destruct field_value; try reflexivity. contradiction.
Qed.

(** C4, as the code has it. A field whose attribute on [issue.fields] is
    [None] resolves to [None]; a field id for which [issue.fields] has no
    attribute makes [getattr] raise [AttributeError]. *)
Theorem resolve_field_value_null_or_absent
    (self : QueryManager) (issue : Issue) (field_id : string) :
  field_id <> "created"%string ->
  (field_attrs (issue_fields issue) !! field_id = Some VNone ->
     resolve_field_value self issue field_id = Ok VNone) /\
  (field_attrs (issue_fields issue) !! field_id = None ->
     resolve_field_value self issue field_id = Raise (AttributeError field_id)).
Proof.
  intros Hne. unfold resolve_field_value. split; intros Hv.
  - now rewrite (getattr_fields_present _ _ _ Hne Hv).
  - now rewrite (getattr_fields_absent _ _ Hne Hv).
Qed.

(** What [pick_value] makes of a list or tuple. *)
Lemma pick_value_empty (self : QueryManager) (field_id : string) :
  pick_value self field_id [] = VNone.
Proof. reflexivity. Qed.

Lemma pick_value_first (self : QueryManager) (field_id : string)
    (v : PyVal) (l : list PyVal) :
  fields_to_attributes self !! field_id ≫= (fun a => known_values (settings self) !! a) = None ->
  pick_value self field_id (v :: l) = getattr_default v "name" v.
Proof. intros Hk. unfold pick_value. simpl. now rewrite Hk. Qed.

Lemma pick_value_known (self : QueryManager) (field_id attribute_name : string)
    (known : list string) (v : PyVal) (l : list PyVal) :
  fields_to_attributes self !! field_id = Some attribute_name ->
  known_values (settings self) !! attribute_name = Some known ->
  let values := map (fun x => getattr_default x "name" x) (v :: l) in
  (forall pre k post,
     known = pre ++ k :: post ->
     py_in (VStr k) values = true ->
     Forall (fun k' => py_in (VStr k') values = false) pre ->
     pick_value self field_id (v :: l) = VStr k) /\
  (Forall (fun k' => py_in (VStr k') values = false) known ->
     pick_value self field_id (v :: l) = VNone).
Proof.
  intros Ha Hk values. unfold pick_value.
  cbn [length Nat.eqb]. rewrite Ha. cbn [mbind option_bind]. rewrite Hk.
  fold values. split.
  - intros pre k post -> Hin Hpre.
    now rewrite (find_first (fun k' => py_in (VStr k') values) pre post k Hpre Hin).
  - intros Hnone.
    now rewrite (find_no_match (fun k' => py_in (VStr k') values) known Hnone).
Qed.

(** [None] is not one of the primitive types, so [coerce] turns it into
    the string ['None']. *)
Lemma coerce_None : coerce VNone = Ok (VStr "None").
Proof. reflexivity. Qed.

(** C5, where the code departs from it. When the unwrapped field value
    is an empty list or tuple, or a list none of whose candidates is one
    of the field's known values, [pick_value] reduces it to [None], and
    [coerce] then turns that [None] into the string ['None']:
    [resolve_field_value] returns ['None'], not [None]. *)
Theorem resolve_field_value_None_string
    (self : QueryManager) (issue : Issue) (field_id : string)
    (field_value : PyVal) (l : list PyVal) :
  getattr_fields (issue_fields issue) field_id = Ok field_value ->
  field_value <> VNone ->
  as_sequence (getattr_default field_value "value" field_value) = Some l ->
  (l = [] \/
   exists attribute_name known,
     fields_to_attributes self !! field_id = Some attribute_name /\
     known_values (settings self) !! attribute_name = Some known /\
     Forall (fun k => py_in (VStr k) (map (fun v => getattr_default v "name" v) l) = false)
            known) ->
  resolve_field_value self issue field_id = Ok (VStr "None").
Proof.
  intros Hget Hnn Hseq Hcase.
  rewrite (resolve_field_value_unfold _ _ _ _ Hget Hnn).
  unfold select_value. rewrite Hseq.
  assert (Hpick : pick_value self field_id l = VNone).
  { destruct Hcase as [->|(a & known & Ha & Hk & Hnone)]; [apply pick_value_empty|].
    destruct l as [|v l]; [apply pick_value_empty|].
    exact (proj2 (pick_value_known self field_id a known v l Ha Hk) Hnone). }
  rewrite Hpick. apply coerce_None.
Qed.

(** C6, as the code has it. The value computed in [resolve_field_value]
    is returned unchanged when it is a [bool], [int], [float], [str] or
    [bytes]. Otherwise [str(value)] is returned; when [str] raises
    [TypeError] the value is returned unchanged; any other exception
    raised by [str] propagates. *)
Theorem resolve_field_value_coerces
    (self : QueryManager) (issue : Issue) (field_id : string) (field_value : PyVal) :
  getattr_fields (issue_fields issue) field_id = Ok field_value ->
  field_value <> VNone ->
  let value := select_value self field_id field_value in
  (is_primitive value = true ->
     resolve_field_value self issue field_id = Ok value) /\
  (is_primitive value = false -> forall s, py_str value = Ok s ->
     resolve_field_value self issue field_id = Ok (VStr s)) /\
  (is_primitive value = false -> py_str value = Raise TypeError ->
     resolve_field_value self issue field_id = Ok value) /\
  (is_primitive value = false -> forall e, py_str value = Raise e -> e <> TypeError ->
     resolve_field_value self issue field_id = Raise e).
Proof.
  intros Hget Hnn value.
  rewrite (resolve_field_value_unfold _ _ _ _ Hget Hnn). fold value.
  unfold coerce. repeat split.
  - intros ->. reflexivity.
  - intros -> s ->. reflexivity.
  - intros -> ->. reflexivity.
  - intros -> e -> Hne. destruct e; try reflexivity. contradiction.
Qed.

End FieldValue.

(** [customfield_10003] is [None] on the sample issue and
    [customfield_10099] is not an attribute of its [fields]. *)
Lemma resolve_field_value_null_or_absent_witness :
  resolve_field_value (H := sample_runtime) sample_manager issue_unchanged "customfield_10003"
    = Ok VNone /\
  resolve_field_value (H := sample_runtime) sample_manager issue_unchanged "customfield_10099"
    = Raise (AttributeError "customfield_10099").
Proof.
  split.
  - apply (resolve_field_value_null_or_absent (H := sample_runtime)
             sample_manager issue_unchanged "customfield_10003");
      [discriminate | vm_compute; reflexivity].
  - apply (resolve_field_value_null_or_absent (H := sample_runtime)
             sample_manager issue_unchanged "customfield_10099");
      [discriminate | vm_compute; reflexivity].
Defined.

(** C4 does not hold for a field that is absent: [getattr] raises. *)
Lemma resolve_field_value_absent_raises :
  ~ (forall (R : PyRuntime) (self : QueryManager) (issue : Issue) (field_id : string),
       field_attrs (issue_fields issue) !! field_id = None \/
       field_attrs (issue_fields issue) !! field_id = Some VNone ->
       resolve_field_value self issue field_id = Ok VNone).
Proof.
  intros Hclaim.
  specialize (Hclaim sample_runtime sample_manager issue_unchanged "customfield_10099"%string).
  assert (Hraise :
    resolve_field_value (H := sample_runtime) sample_manager issue_unchanged
      "customfield_10099" = Raise (AttributeError "customfield_10099"))
    by (vm_compute; reflexivity).
  rewrite Hraise in Hclaim.
  assert (Habsent : field_attrs (issue_fields issue_unchanged) !! "customfield_10099"%string
                    = None) by (vm_compute; reflexivity).
  specialize (Hclaim (or_introl Habsent)). discriminate.
Qed.

(** [labels] is [[]] on the sample issue; [fixVersions] holds the single
    version [R1] while the known values of [Release] are [R2], [R3]. *)
Lemma resolve_field_value_None_string_witness :
  resolve_field_value (H := sample_runtime) sample_manager issue_unchanged "labels"
    = Ok (VStr "None") /\
  resolve_field_value (H := sample_runtime) sample_manager issue_unchanged "fixVersions"
    = Ok (VStr "None").
Proof.
  split.
  - apply (resolve_field_value_None_string (H := sample_runtime)
             sample_manager issue_unchanged "labels" (VList []) []).
    + vm_compute. reflexivity.
    + discriminate.
    + reflexivity.
    + left. reflexivity.
  - apply (resolve_field_value_None_string (H := sample_runtime)
             sample_manager issue_unchanged "fixVersions"
             (VList [ VObj 4 [ ("name"%string, VStr "R1") ] (Ok "R1"%string) ])
             [ VObj 4 [ ("name"%string, VStr "R1") ] (Ok "R1"%string) ]).
    + vm_compute. reflexivity.
    + discriminate.
    + reflexivity.
    + right. exists "Release"%string, [ "R2"%string; "R3"%string ].
      repeat split; try (vm_compute; reflexivity).
      repeat constructor.
Defined.

(** [customfield_10005] holds an object for which [str] raises
    [TypeError]: it comes back unchanged. *)
Lemma resolve_field_value_coerces_witness :
  resolve_field_value (H := sample_runtime) sample_manager issue_unchanged "customfield_10005"
    = Ok unprintable_object.
Proof.
  refine (proj1 (proj2 (proj2
    (resolve_field_value_coerces (H := sample_runtime)
       sample_manager issue_unchanged "customfield_10005" unprintable_object _ _))) _ _).
  - vm_compute. reflexivity.
  - discriminate.
  - vm_compute. reflexivity.
  - vm_compute. reflexivity.
Defined.

(** C6 does not hold when [str] fails with an exception other than
    [TypeError]: [customfield_10004] holds an object whose [__str__]
    raises [ValueError], and [resolve_field_value] raises it too. *)
Lemma resolve_field_value_str_error_propagates :
  ~ (forall (R : PyRuntime) (self : QueryManager) (issue : Issue) (field_id : string)
            (field_value : PyVal) (e : Exc),
       getattr_fields (issue_fields issue) field_id = Ok field_value ->
       field_value <> VNone ->
       is_primitive (select_value self field_id field_value) = false ->
       py_str (select_value self field_id field_value) = Raise e ->
       resolve_field_value self issue field_id = Ok (select_value self field_id field_value)).
Proof.
  intros Hclaim.
  specialize (Hclaim sample_runtime sample_manager issue_unchanged
                "customfield_10004"%string stubborn_object ValueError).
  assert (Hraise :
    resolve_field_value (H := sample_runtime) sample_manager issue_unchanged
      "customfield_10004" = Raise ValueError) by (vm_compute; reflexivity).
  rewrite Hraise in Hclaim.
  discriminate Hclaim; solve [vm_compute; reflexivity | discriminate].
Qed.

(** ** Equality of snapshots *)

Section SnapshotEquality.
Context `{PyRuntime}.

(** On strings and [None], Python's [==] is equality of values. *)
Lemma py_eq_textual (v w : PyVal) :
  textual v -> textual w -> (py_eq v w = true <-> v = w).
Proof.
  intros [->|[s ->]] [->|[t ->]]; simpl.
  - tauto.
  - split; discriminate.
  - split; discriminate.
  - rewrite String.eqb_eq. split; [now intros -> | now intros [= ->]].
Qed.

(** C8. Two snapshots are equal under [__eq__] exactly when [change] and
    [key] are the same strings, the two dates have the same [isoformat]
    text, and [from_string] and [to_string] are equal under Python's
    [==]; for values that are strings or [None], as the changelog
    carries them, that is when the five fields are the same, the date
    being taken as its [isoformat] text. *)
Theorem IssueSnapshot_eq_iff (self other : IssueSnapshot) :
  (IssueSnapshot_eq self other = true <->
   change self = change other /\
   key self = key other /\
   isoformat (date self) = isoformat (date other) /\
   py_eq (from_string self) (from_string other) = true /\
   py_eq (to_string self) (to_string other) = true) /\
  (textual (from_string self) -> textual (from_string other) ->
   textual (to_string self) -> textual (to_string other) ->
   (IssueSnapshot_eq self other = true <->
    change self = change other /\
    key self = key other /\
    isoformat (date self) = isoformat (date other) /\
    from_string self = from_string other /\
    to_string self = to_string other)).
Proof.
  assert (Hiff : IssueSnapshot_eq self other = true <->
    change self = change other /\
    key self = key other /\
    isoformat (date self) = isoformat (date other) /\
    py_eq (from_string self) (from_string other) = true /\
    py_eq (to_string self) (to_string other) = true).
  { unfold IssueSnapshot_eq. cbn [forallb].
    rewrite !andb_true_iff, !String.eqb_eq. tauto. }
  split; [exact Hiff|].
  intros Hf1 Hf2 Ht1 Ht2.
  rewrite Hiff, (py_eq_textual _ _ Hf1 Hf2), (py_eq_textual _ _ Ht1 Ht2). tauto.
Qed.

End SnapshotEquality.

(** ** Running a generator *)

Lemma Gen_bind_yielded {A B : Type} (m : Gen A) (f : A -> Gen B) :
  yielded (m ≫= f) =
    match outcome m with
    | Ok a => yielded m ++ yielded (f a)
    | Raise _ => yielded m
    end.
Proof. unfold mbind, Gen_bind. now destruct (outcome m). Qed.

Lemma Gen_bind_outcome {A B : Type} (m : Gen A) (f : A -> Gen B) :
  outcome (m ≫= f) =
    match outcome m with
    | Ok a => outcome (f a)
    | Raise e => Raise e
    end.
Proof. unfold mbind, Gen_bind. now destruct (outcome m). Qed.

Lemma for_each_cons_yielded {X : Type} (x : X) (l : list X) (body : X -> Gen unit) :
  yielded (for_each (x :: l) body) =
    match outcome (body x) with
    | Ok _ => yielded (body x) ++ yielded (for_each l body)
    | Raise _ => yielded (body x)
    end.
Proof. simpl. now rewrite Gen_bind_yielded. Qed.

Lemma for_each_cons_outcome {X : Type} (x : X) (l : list X) (body : X -> Gen unit) :
  outcome (for_each (x :: l) body) =
    match outcome (body x) with
    | Ok _ => outcome (for_each l body)
    | Raise e => Raise e
    end.
Proof. simpl. now rewrite Gen_bind_outcome. Qed.

(** A loop finishes exactly when every run of its body does. *)
Lemma for_each_outcome_Ok {X : Type} (l : list X) (body : X -> Gen unit) :
  outcome (for_each l body) = Ok tt <-> Forall (fun x => outcome (body x) = Ok tt) l.
Proof.
  induction l as [|x l IH].
  - simpl. split; [constructor | reflexivity].
  - rewrite for_each_cons_outcome. split.
    + destruct (outcome (body x)) as [[]|e] eqn:Hx; [|discriminate].
      intros Hl. constructor; [exact Hx | now apply IH].
    + intros Hall. inversion Hall as [|? ? Hx Hl]; subst.
      rewrite Hx. now apply IH.
Qed.

(** Whatever a loop yields was yielded by a run of its body. *)
Lemma for_each_yielded_In {X : Type} (l : list X) (body : X -> Gen unit)
    (s : IssueSnapshot) :
  In s (yielded (for_each l body)) -> exists x, In x l /\ In s (yielded (body x)).
Proof.
  induction l as [|x l IH]; [intros []|].
  rewrite for_each_cons_yielded.
  destruct (outcome (body x)).
  - rewrite in_app_iff. intros [Hs|Hs].
    + exists x. simpl. auto.
    + destruct (IH Hs) as (y & Hy & Hsy). exists y. simpl. auto.
  - intros Hs. exists x. simpl. auto.
Qed.

(** ** The two loops of [iter_changes] *)

Section Reconstruction.
Context `{PyRuntime}.

(** The value the first loop puts in [to_string]. *)
Lemma initial_snapshot_run (self : QueryManager) (issue : Issue) (f : string) :
  initial_snapshot self issue f =
    match current_value self issue f with
    | Raise e => mk_Gen [] (Raise e)
    | Ok v =>
        match dateutil_parse (created (issue_fields issue)) with
        | Raise e => mk_Gen [] (Raise e)
        | Ok d =>
            mk_Gen
              [ IssueSnapshot_init f (issue_key issue) d VNone
                  match find (fun h => String.eqb (field h) f) (chain_items issue) with
                  | Some h => fromString h
                  | None => v
                  end ]
              (Ok tt)
        end
    end.
Proof.
  unfold initial_snapshot, current_value.
  destruct (field_name_to_id self f ≫= _) as [v|e]; [|reflexivity].
  destruct (dateutil_parse _) as [d|e]; reflexivity.
Qed.


Lemma concat_no_match (f : string) (hs : list History) :
  Forall (fun h => Forall (fun x => field x <> f) (items h)) hs ->
  Forall (fun x => String.eqb (field x) f = false) (concat (map items hs)).
Proof.
  induction 1 as [|h hs Hh _ IH]; simpl; [constructor|].
  apply Forall_app. split; [|exact IH].
  eapply Forall_impl; [exact Hh|]. intros x Hx. now apply String.eqb_neq.
Qed.

Lemma find_first_change (issue : Issue) (f : string) (item : ChangeItem) :
  first_change_of issue f item ->
  find (fun h => String.eqb (field h) f) (chain_items issue) = Some item.
Proof.
  intros (hs1 & h & hs2 & is1 & is2 & Hhs & His & Hf & Hpre1 & Hpre2).
  unfold chain_items. rewrite Hhs, map_app, concat_app. simpl. rewrite His.
  rewrite <- !app_assoc, app_assoc. simpl.
  apply find_first.
  - apply Forall_app. split; [now apply concat_no_match|].
    eapply Forall_impl; [exact Hpre2|]. intros x Hx. now apply String.eqb_neq.
  - now apply String.eqb_eq.
Qed.

Lemma find_never_changed (issue : Issue) (f : string) :
  never_changed issue f ->
  find (fun h => String.eqb (field h) f) (chain_items issue) = None.
Proof. intros Hn. apply find_no_match. now apply concat_no_match. Qed.

(** The two cases are exhaustive: either some changelog item is the
    first one for [f], or none is for [f]. *)
Lemma first_change_or_never (issue : Issue) (f : string) :
  (exists item, first_change_of issue f item) \/ never_changed issue f.
Proof.
  unfold first_change_of, never_changed.
  induction (histories issue) as [|h hs IH]; [right; constructor|].
  destruct (find (fun x => String.eqb (field x) f) (items h)) as [item|] eqn:Hfind.
  - left. apply find_Some_split in Hfind as (is1 & is2 & Hitems & Hf & Hpre).
    exists item, [], h, hs, is1, is2. repeat split; auto.
    + now apply String.eqb_eq.
    + eapply Forall_impl; [exact Hpre|]. intros x Hx. now apply String.eqb_neq.
  - apply find_None_Forall in Hfind.
    assert (Hh : Forall (fun x => field x <> f) (items h)).
    { eapply Forall_impl; [exact Hfind|]. intros x Hx. now apply String.eqb_neq. }
    destruct IH as [(item & hs1 & h' & hs2 & is1 & is2 & -> & Hrest)|Hnever].
    + left. exists item, (h :: hs1), h', hs2, is1, is2.
      destruct Hrest as (Hitems & Hf & Hpre1 & Hpre2). repeat split; auto.
    + right. constructor; assumption.
Qed.

(** What one run of the first loop's body yields is the initial
    snapshot of its field. *)
Lemma initial_snapshot_yields (self : QueryManager) (issue : Issue) (f : string)
    (s : IssueSnapshot) :
  In s (yielded (initial_snapshot self issue f)) ->
  yielded (initial_snapshot self issue f) = [s] /\
  outcome (initial_snapshot self issue f) = Ok tt /\
  initial_snapshot_of self issue f s.
Proof.
  rewrite initial_snapshot_run.
  destruct (current_value self issue f) as [v|e] eqn:Hv; [|intros []].
  destruct (dateutil_parse _) as [d|e] eqn:Hd; [|intros []].
  intros [<-|[]]. repeat split; simpl; eauto.
  - intros item Hitem. now rewrite (find_first_change _ _ _ Hitem).
  - intros Hn. now rewrite (find_never_changed _ _ Hn).
Qed.

(** The first loop yields one snapshot per field for as long as it
    runs. *)
Lemma first_loop_lookup (self : QueryManager) (issue : Issue) (fields : list string)
    (i : nat) (s : IssueSnapshot) :
  yielded (for_each fields (initial_snapshot self issue)) !! i = Some s ->
  exists f, fields !! i = Some f /\ initial_snapshot_of self issue f s.
Proof.
  revert i. induction fields as [|f fields IH]; intros i; [discriminate|].
  rewrite for_each_cons_yielded.
  destruct (yielded (initial_snapshot self issue f)) as [|s0 l0] eqn:Hy.
  - destruct (outcome (initial_snapshot self issue f)) eqn:Ho.
    + rewrite initial_snapshot_run in Hy, Ho.
      destruct (current_value self issue f); [|discriminate].
      destruct (dateutil_parse _); discriminate.
    + discriminate.
  - assert (Hin : In s0 (yielded (initial_snapshot self issue f)))
      by (rewrite Hy; simpl; auto).
    destruct (initial_snapshot_yields _ _ _ _ Hin) as (Hone & Hok & Hspec).
    rewrite Hok. rewrite Hy in Hone. injection Hone as ->.
    destruct i as [|i]; simpl.
    + intros [= <-]. exists f. auto.
    + apply IH.
Qed.

Lemma first_loop_length (self : QueryManager) (issue : Issue) (fields : list string) :
  (length (yielded (for_each fields (initial_snapshot self issue))) <= length fields)%nat /\
  (outcome (for_each fields (initial_snapshot self issue)) = Ok tt ->
   length (yielded (for_each fields (initial_snapshot self issue))) = length fields).
Proof.
  induction fields as [|f fields [IHle IHeq]]; [simpl; auto|].
  rewrite for_each_cons_yielded, for_each_cons_outcome.
  rewrite initial_snapshot_run.
  destruct (current_value self issue f); [|simpl; split; [lia|discriminate]].
  destruct (dateutil_parse _); [|simpl; split; [lia|discriminate]].
  simpl. split; [lia|]. intros Hok. now rewrite IHeq.
Qed.

(** [iter_changes] is the first loop followed, if it finishes, by the
    second. *)
Lemma iter_changes_yielded (self : QueryManager) (issue : Issue) (fields : list string) :
  yielded (iter_changes self issue fields) =
    match outcome (for_each fields (initial_snapshot self issue)) with
    | Ok _ => yielded (for_each fields (initial_snapshot self issue)) ++
              yielded (for_each (histories issue) (history_snapshots issue fields))
    | Raise _ => yielded (for_each fields (initial_snapshot self issue))
    end.
Proof. unfold iter_changes. now rewrite Gen_bind_yielded. Qed.

Lemma iter_changes_outcome (self : QueryManager) (issue : Issue) (fields : list string) :
  outcome (iter_changes self issue fields) =
    match outcome (for_each fields (initial_snapshot self issue)) with
    | Ok _ => outcome (for_each (histories issue) (history_snapshots issue fields))
    | Raise e => Raise e
    end.
Proof. unfold iter_changes. now rewrite Gen_bind_outcome. Qed.

End Reconstruction.

Section SecondLoop.
Context `{PyRuntime}.

(** The inner loop never raises; it yields one snapshot per tracked
    item, in order. *)
Lemma items_loop_run (issue : Issue) (fields : list string) (d : datetime)
    (l : list ChangeItem) :
  for_each l (fun item =>
    if tracked fields item
    then yield (IssueSnapshot_init (field item) (issue_key issue) d
                  (fromString item) (toString item))
    else mret tt)
  = mk_Gen
      (map (fun item => IssueSnapshot_init (field item) (issue_key issue) d
                          (fromString item) (toString item))
           (List.filter (tracked fields) l))
      (Ok tt).
Proof.
  induction l as [|item l IH]; [reflexivity|].
  cbn [for_each List.filter]. rewrite IH.
  destruct (tracked fields item); reflexivity.
Qed.

Lemma history_snapshots_run (issue : Issue) (fields : list string) (h : History) :
  history_snapshots issue fields h =
    match dateutil_parse (h_created h) with
    | Raise e => mk_Gen [] (Raise e)
    | Ok d =>
        mk_Gen
          (map (fun item => IssueSnapshot_init (field item) (issue_key issue) d
                              (fromString item) (toString item))
               (List.filter (tracked fields) (items h)))
          (Ok tt)
    end.
Proof.
  unfold history_snapshots.
  destruct (dateutil_parse (h_created h)) as [d|e]; [|reflexivity].
  unfold mbind, Gen_bind, eval. cbn [outcome yielded].
  rewrite items_loop_run. reflexivity.
Qed.

Lemma history_snapshots_outcome_Ok (issue : Issue) (fields : list string) (h : History) :
  outcome (history_snapshots issue fields h) = Ok tt <->
  exists d, dateutil_parse (h_created h) = Ok d.
Proof.
  rewrite history_snapshots_run.
  destruct (dateutil_parse (h_created h)) as [d|e]; simpl; split;
    try discriminate; eauto. intros [? ?]; discriminate.
Qed.

(** Every snapshot of the second loop carries the date of the history it
    comes from. *)
Lemma history_snapshots_date (issue : Issue) (fields : list string) (h : History)
    (s : IssueSnapshot) :
  In s (yielded (history_snapshots issue fields h)) ->
  exists d, dateutil_parse (h_created h) = Ok d /\ date s = astimezone_utc d.
Proof.
  rewrite history_snapshots_run.
  destruct (dateutil_parse (h_created h)) as [d|e]; [|intros []].
  cbn [yielded]. rewrite in_map_iff. intros (item & <- & _). eauto.
Qed.

(** Snapshots that share a date are in order. *)
Lemma same_date_nondecreasing (d : datetime) (l : list IssueSnapshot) :
  Forall (fun s => date s = d) l -> dates_nondecreasing l.
Proof.
  unfold dates_nondecreasing.
  induction 1 as [|s l Hs Hl IH]; constructor; [exact IH|].
  eapply Forall_impl; [exact Hl|].
  intros s' Hs'. unfold datetime_le. rewrite Hs, Hs'. lia.
Qed.

Lemma second_loop_nondecreasing (issue : Issue) (fields : list string) (hs : list History) :
  StronglySorted
    (fun h1 h2 => forall d1 d2,
       dateutil_parse (h_created h1) = Ok d1 ->
       dateutil_parse (h_created h2) = Ok d2 -> datetime_le d1 d2) hs ->
  dates_nondecreasing (yielded (for_each hs (history_snapshots issue fields))).
Proof.
  induction 1 as [|h hs Hsorted IH Hh]; [constructor|].
  rewrite for_each_cons_yielded.
  assert (Hown : dates_nondecreasing (yielded (history_snapshots issue fields h))).
  { rewrite history_snapshots_run.
    destruct (dateutil_parse (h_created h)) as [d|e]; [|constructor].
    apply (same_date_nondecreasing (astimezone_utc d)).
    cbn [yielded]. apply List.Forall_forall. intros s.
    rewrite in_map_iff. now intros (item & <- & _). }
  destruct (outcome (history_snapshots issue fields h)); [|exact Hown].
  apply StronglySorted_app. split; [|split; [exact Hown | exact IH]].
  intros s1 s2 Hs1 Hs2.
  apply list_elem_of_In, history_snapshots_date in Hs1 as (d1 & Hd1 & ->).
  apply list_elem_of_In, for_each_yielded_In in Hs2 as (h2 & Hin2 & Hs2).
  apply history_snapshots_date in Hs2 as (d2 & Hd2 & ->).
  rewrite List.Forall_forall in Hh.
  exact (Hh h2 Hin2 d1 d2 Hd1 Hd2).
Qed.


End SecondLoop.

(** ** The snapshots of [iter_changes] *)

Section IterChangesClaims.
Context `{PyRuntime}.

(** C1. The snapshot that [iter_changes] yields for the [i]-th tracked
    field [f] has [change = f], the issue's key, the issue's [created]
    timestamp converted to UTC, [from_string = None], and as [to_string]
    the [fromString] of the first changelog item for [f] (histories in
    their given order, items in order); when no changelog item is for
    [f], [to_string] is the field's current value as
    [resolve_field_value] returns it. *)
Theorem iter_changes_initial_snapshot
    (self : QueryManager) (issue : Issue) (fields : list string)
    (i : nat) (f : string) (s : IssueSnapshot) :
  fields !! i = Some f ->
  yielded (iter_changes self issue fields) !! i = Some s ->
  change s = f /\
  key s = issue_key issue /\
  (exists d, dateutil_parse (created (issue_fields issue)) = Ok d /\
             date s = astimezone_utc d) /\
  from_string s = VNone /\
  (forall item, first_change_of issue f item -> to_string s = fromString item) /\
  (never_changed issue f ->
     exists field_id, field_name_to_id self f = Ok field_id /\
                      resolve_field_value self issue field_id = Ok (to_string s)).
Proof.
  intros Hf Hs.
  assert (Hfirst : yielded (for_each fields (initial_snapshot self issue)) !! i = Some s).
  { rewrite iter_changes_yielded in Hs.
    destruct (first_loop_length self issue fields) as [_ Hlen].
    destruct (outcome (for_each fields (initial_snapshot self issue))) as [[]|e];
      [|exact Hs].
    rewrite lookup_app_l in Hs; [exact Hs|].
    rewrite Hlen by reflexivity. now apply lookup_lt_Some in Hf. }
  apply first_loop_lookup in Hfirst as (f' & Hf' & Hspec).
  rewrite Hf in Hf'. injection Hf' as <-.
  destruct Hspec as (Hc & Hk & Hd & Hfrom & Hchg & Hcur).
  repeat split; auto.
  intros Hn. specialize (Hcur Hn). unfold current_value in Hcur.
  apply result_bind_Ok in Hcur. exact Hcur.
Qed.



Lemma second_loop_outcome_Ok (issue : Issue) (fields : list string) :
  outcome (for_each (histories issue) (history_snapshots issue fields)) = Ok tt <->
  Forall (fun h => exists d, dateutil_parse (h_created h) = Ok d) (histories issue).
Proof.
  rewrite for_each_outcome_Ok. rewrite !List.Forall_forall.
  split; intros Hall h Hh.
  - apply (history_snapshots_outcome_Ok issue fields h), Hall, Hh.
  - apply history_snapshots_outcome_Ok, Hall, Hh.
Qed.


(** C9. When the timestamps of the changelog histories are
    non-decreasing in the given order, so are the dates of the snapshots
    that [iter_changes] yields after the initial ones. *)
Theorem iter_changes_dates_nondecreasing
    (self : QueryManager) (issue : Issue) (fields : list string) :
  timestamps_nondecreasing issue ->
  dates_nondecreasing (drop (length fields) (yielded (iter_changes self issue fields))).
Proof.
  intros Hsorted. rewrite iter_changes_yielded.
  destruct (first_loop_length self issue fields) as [Hle Heq].
  destruct (outcome (for_each fields (initial_snapshot self issue))) as [[]|e].
  - rewrite <- Heq by reflexivity. rewrite drop_app_length.
    now apply second_loop_nondecreasing.
  - rewrite drop_ge by exact Hle. constructor.
Qed.

End IterChangesClaims.

(** ** The claims on the sample data *)

(** The two sample snapshots agree on all five fields. *)
Lemma IssueSnapshot_eq_iff_witness :
  IssueSnapshot_eq (H := sample_runtime) sample_initial_snapshot sample_initial_snapshot_east
  = true.
Proof.
  apply (proj2 (IssueSnapshot_eq_iff (H := sample_runtime)
                  sample_initial_snapshot sample_initial_snapshot_east));
    try (left; reflexivity); try (right; eexists; reflexivity).
  repeat split; vm_compute; reflexivity.
Defined.

(** On [issue_changed], the first changelog item for [status] has
    [fromString = 'To Do']. *)
Lemma iter_changes_initial_snapshot_witness :
  ["status"%string] !! 0%nat = Some "status"%string /\
  yielded (iter_changes (H := sample_runtime) sample_manager issue_changed ["status"%string])
    !! 0%nat = Some sample_initial_snapshot /\
  change sample_initial_snapshot = "status"%string /\
  key sample_initial_snapshot = issue_key issue_changed /\
  from_string sample_initial_snapshot = VNone.
Proof.
  assert (Hf : ["status"%string] !! 0%nat = Some "status"%string) by reflexivity.
  assert (Hs : yielded (iter_changes (H := sample_runtime) sample_manager issue_changed
                          ["status"%string]) !! 0%nat = Some sample_initial_snapshot)
    by (vm_compute; reflexivity).
  destruct (iter_changes_initial_snapshot (H := sample_runtime)
              sample_manager issue_changed ["status"%string] 0 "status"
              sample_initial_snapshot Hf Hs) as (Hc & Hk & _ & Hfrom & _).
  auto.
Defined.






Lemma sample_timestamps_nondecreasing :
  timestamps_nondecreasing (H := sample_runtime) issue_changed.
Proof.
  unfold timestamps_nondecreasing. simpl.
  apply SSorted_cons; [apply SSorted_cons; constructor|].
  constructor; [|constructor].
  intros d1 d2 H1 H2. vm_compute in H1, H2.
  injection H1 as <-. injection H2 as <-. unfold datetime_le. simpl. lia.
Qed.

(** The two histories of [issue_changed] are in order of time. *)
Lemma iter_changes_dates_nondecreasing_witness :
  timestamps_nondecreasing (H := sample_runtime) issue_changed /\
  dates_nondecreasing
    (drop 1 (yielded (iter_changes (H := sample_runtime) sample_manager issue_changed
                        ["status"%string]))).
Proof.
  split; [exact sample_timestamps_nondecreasing|].
  exact (iter_changes_dates_nondecreasing (H := sample_runtime)
           sample_manager issue_changed ["status"%string] sample_timestamps_nondecreasing).
Defined.

(** ** The scenarios of the specification *)

(** A field that never changed: one snapshot, holding the current
    value. *)
Example scenario_never_changed :
  iter_changes (H := sample_runtime) sample_manager issue_unchanged ["status"%string]
  = mk_Gen
      [ {| change := "status"; key := "ISSUE-1";
           date := mk_datetime 1577836800000000 0;
           from_string := VNone; to_string := VStr "Done" |} ]
      (Ok tt).
Proof. vm_compute. reflexivity. Qed.

(** A field that changed twice: the initial snapshot holds the value
    before the first change; the untracked [assignee] item is skipped. *)
Example scenario_changed :
  iter_changes (H := sample_runtime) sample_manager issue_changed ["status"%string]
  = mk_Gen
      [ sample_initial_snapshot;
        {| change := "status"; key := "ISSUE-1";
           date := mk_datetime 1577923200000000 0;
           from_string := VStr "To Do"; to_string := VStr "In Progress" |};
        {| change := "status"; key := "ISSUE-1";
           date := mk_datetime 1578040200000000 0;
           from_string := VStr "In Progress"; to_string := VStr "Done" |} ]
      (Ok tt).
Proof. vm_compute. reflexivity. Qed.

(** The dates of the snapshots print in UTC. *)
Example scenario_dates_in_utc :
  map (fun s => isoformat (PyRuntime := sample_runtime) (date s))
      (yielded (iter_changes (H := sample_runtime) sample_manager issue_changed
                  ["status"%string]))
  = [ "2020-01-01T00:00:00+00:00"%string;
      "2020-01-02T00:00:00+00:00"%string;
      "2020-01-03T08:30:00+00:00"%string ].
Proof. vm_compute. reflexivity. Qed.

(** The known values [Feature], [Bug] pick [Feature] out of the list
    [Bug], [Feature]. *)
Example scenario_known_values :
  resolve_attribute_value (H := sample_runtime) sample_manager issue_unchanged "Type"
  = Ok (VStr "Feature").
Proof. vm_compute. reflexivity. Qed.

(** Without known values the first element is taken, by its name. *)
Example scenario_first_element :
  resolve_field_value (H := sample_runtime) sample_manager issue_unchanged "components"
  = Ok (VStr "Docs").
Proof. vm_compute. reflexivity. Qed.

(** A wrapped value is unwrapped. *)
Example scenario_wrapped_value :
  resolve_attribute_value (H := sample_runtime) sample_manager issue_unchanged "Team"
  = Ok (VStr "Team 1").
Proof. vm_compute. reflexivity. Qed.

(** * Further properties of the module *)

(** ** Construction of the manager *)

Section Construction.
Context `{PyRuntime}.

(** A name is known to a directory when some entry matches it. *)
Lemma field_name_to_id_total (self : QueryManager) (name : string) :
  (exists f fid, In f (jira_fields self) /\ name_matches name f /\
                 field_name_to_id self name = Ok fid) \/
  ((forall f, In f (jira_fields self) -> ~ name_matches name f) /\
   field_name_to_id self name =
     Raise (ConfigError ("JIRA field with name `" ++ name ++
       "` does not exist (did you try to use the field id instead?)")%string)).
Proof.
  destruct (field_name_to_id self name) as [fid|e] eqn:Hid.
  - left. destruct (field_name_to_id_found _ _ _ Hid) as (pre & f & post & Hl & _ & Hm & _).
    exists f, fid. rewrite Hl. repeat split; auto.
    apply in_or_app. right. simpl. auto.
  - right. unfold field_name_to_id in Hid.
    destruct (find _ (jira_fields self)) as [f|] eqn:Hfind; [discriminate|].
    split; [|now rewrite Hid].
    apply find_None_Forall in Hfind. rewrite List.Forall_forall in Hfind.
    intros f Hf. unfold name_matches. apply String.eqb_neq. now apply Hfind.
Qed.

(** The lookup reads nothing of the manager but its directory. *)
Lemma field_name_to_id_directory (self self' : QueryManager) (name : string) :
  jira_fields self' = jira_fields self ->
  field_name_to_id self' name = field_name_to_id self name.
Proof. intros Hd. unfold field_name_to_id. now rewrite Hd. Qed.

Lemma init_attribute_Ok (self self' : QueryManager) (name fld : string) :
  init_attribute self (name, fld) = Ok self' ->
  exists fid,
    field_name_to_id self fld = Ok fid /\
    jira_fields self' = jira_fields self /\
    settings self' = settings self /\
    attributes_to_fields self' = <[name := fid]> (attributes_to_fields self) /\
    fields_to_attributes self' = <[fid := name]> (fields_to_attributes self).
Proof.
  unfold init_attribute. intros Hrun.
  apply result_bind_Ok in Hrun as (fid & Hfid & [= <-]).
  exists fid. simpl. auto.
Qed.

Lemma init_attributes_succeeds (l : list (string * string)) (self : QueryManager) :
  (exists self', init_attributes self l = Ok self') <->
  Forall (fun item => exists f, In f (jira_fields self) /\ name_matches (snd item) f) l.
Proof.
  revert self. induction l as [|[name fld] l IH]; intros self.
  - simpl. split; [constructor | eauto].
  - cbn [init_attributes]. split.
    + intros [self' Hrun]. apply result_bind_Ok in Hrun as (self1 & H1 & Hrest).
      destruct (init_attribute_Ok _ _ _ _ H1) as (fid & Hfid & Hdir & _).
      constructor.
      * destruct (field_name_to_id_total self fld) as [(f & _ & Hf & Hm & _)|[_ Hraise]];
          [eauto|]. simpl in Hraise. rewrite Hraise in Hfid. discriminate.
      * rewrite <- Hdir. apply IH. eauto.
    + intros Hall. inversion Hall as [|? ? (f & Hf & Hm) Hl]; subst.
      destruct (field_name_to_id_present self fld f Hf Hm) as [fid Hfid].
      unfold init_attribute. rewrite Hfid. cbn.
      apply IH. exact Hl.
Qed.

(** X1. Construction succeeds exactly when every field name configured
    under [attributes] matches, case-insensitively, some entry of
    [jira.fields()]. *)
Theorem QueryManager_init_succeeds_iff (jira : Jira) (arg : SettingsArg) :
  (exists self, QueryManager_init jira arg = Ok self) <->
  Forall (fun item =>
            exists f, In f (jira_fields_response jira) /\ name_matches (snd item) f)
         (attributes (settings_update default_settings arg)).
Proof. unfold QueryManager_init. now rewrite init_attributes_succeeds. Qed.

Lemma init_attributes_first_unknown (pre post : list (string * string))
    (self : QueryManager) (attr fld : string) :
  Forall (fun item => exists f, In f (jira_fields self) /\ name_matches (snd item) f) pre ->
  (forall f, In f (jira_fields self) -> ~ name_matches fld f) ->
  init_attributes self (pre ++ (attr, fld) :: post) =
    Raise (ConfigError ("JIRA field with name `" ++ fld ++
      "` does not exist (did you try to use the field id instead?)")%string).
Proof.
  intros Hpre. revert self Hpre.
  induction pre as [|[name0 fld0] pre IH]; intros self Hpre Hno.
  - cbn [app init_attributes]. unfold init_attribute.
    now rewrite field_name_to_id_missing by assumption.
  - inversion Hpre as [|? ? (f & Hf & Hm) Hrest]; subst.
    cbn [app init_attributes].
    destruct (field_name_to_id_present self fld0 f Hf Hm) as [fid Hfid].
    unfold init_attribute at 1. rewrite Hfid. cbn.
    apply IH; assumption.
Qed.

(** X2. When construction fails, the [ConfigError] names the first
    configured field name, in the order of the [attributes] mapping,
    that matches no entry of [jira.fields()]. *)
Theorem QueryManager_init_first_unknown
    (jira : Jira) (arg : SettingsArg) (pre post : list (string * string))
    (attr fld : string) :
  attributes (settings_update default_settings arg) = pre ++ (attr, fld) :: post ->
  Forall (fun item =>
            exists f, In f (jira_fields_response jira) /\ name_matches (snd item) f) pre ->
  (forall f, In f (jira_fields_response jira) -> ~ name_matches fld f) ->
  QueryManager_init jira arg =
    Raise (ConfigError ("JIRA field with name `" ++ fld ++
      "` does not exist (did you try to use the field id instead?)")%string).
Proof.
  intros Hattrs Hpre Hno. unfold QueryManager_init. rewrite Hattrs.
  now apply init_attributes_first_unknown.
Qed.

End Construction.

Section AttributeMaps.
Context `{PyRuntime}.

(** The loop of [__init__] writes [attributes_to_fields] only at the
    names it goes through. *)
Lemma init_attributes_other (l : list (string * string)) (self self' : QueryManager)
    (a : string) :
  init_attributes self l = Ok self' ->
  ~ In a (map fst l) ->
  attributes_to_fields self' !! a = attributes_to_fields self !! a.
Proof.
  revert self. induction l as [|[name fld] l IH]; intros self.
  - intros [= <-] _. reflexivity.
  - cbn [init_attributes map fst In]. intros Hrun Hnot.
    apply result_bind_Ok in Hrun as (self1 & H1 & Hrest).
    destruct (init_attribute_Ok _ _ _ _ H1) as (fid & _ & _ & _ & Ha2f & _).
    rewrite (IH _ Hrest) by tauto.
    rewrite Ha2f. apply lookup_insert_ne. tauto.
Qed.

Lemma init_attributes_forward (l : list (string * string)) (self self' : QueryManager)
    (attr fld : string) :
  init_attributes self l = Ok self' ->
  NoDup (map fst l) ->
  In (attr, fld) l ->
  exists fid, field_name_to_id self fld = Ok fid /\
              attributes_to_fields self' !! attr = Some fid.
Proof.
  revert self. induction l as [|[name fld0] l IH]; intros self Hrun Hnd Hin; [destruct Hin|].
  cbn [init_attributes] in Hrun. cbn [map fst] in Hnd.
  apply result_bind_Ok in Hrun as (self1 & H1 & Hrest).
  destruct (init_attribute_Ok _ _ _ _ H1) as (fid & Hfid & Hdir & _ & Ha2f & _).
  apply NoDup_cons in Hnd as [Hfresh Hnd].
  destruct Hin as [[= -> ->]|Hin].
  - exists fid. split; [exact Hfid|].
    rewrite (init_attributes_other _ _ _ attr Hrest).
    + rewrite Ha2f. apply lookup_insert_eq.
    + intros Hin. apply Hfresh. now apply list_elem_of_In.
  - destruct (IH _ Hrest Hnd Hin) as (fid' & Hfid' & Hlook).
    exists fid'. split; [|exact Hlook].
    now rewrite <- (field_name_to_id_directory self self1 fld Hdir).
Qed.

(** Every id stored in [attributes_to_fields] has an entry in
    [fields_to_attributes]. *)
Lemma init_attributes_reverse_exists (l : list (string * string))
    (self self' : QueryManager) :
  init_attributes self l = Ok self' ->
  (forall a fid, attributes_to_fields self !! a = Some fid ->
                 is_Some (fields_to_attributes self !! fid)) ->
  forall a fid, attributes_to_fields self' !! a = Some fid ->
                is_Some (fields_to_attributes self' !! fid).
Proof.
  revert self. induction l as [|[name fld] l IH]; intros self.
  - intros [= <-] Hinv. exact Hinv.
  - cbn [init_attributes]. intros Hrun Hinv.
    apply result_bind_Ok in Hrun as (self1 & H1 & Hrest).
    destruct (init_attribute_Ok _ _ _ _ H1) as (fid & _ & _ & _ & Ha2f & Hf2a).
    apply (IH _ Hrest). intros a fid'. rewrite Ha2f, Hf2a.
    destruct (decide (fid = fid')) as [->|Hne].
    + intros _. rewrite lookup_insert_eq. eauto.
    + rewrite (lookup_insert_ne _ fid fid') by assumption.
      destruct (decide (name = a)) as [->|Hna].
      * rewrite lookup_insert_eq. intros [= <-]. contradiction.
      * rewrite lookup_insert_ne by assumption. apply Hinv.
Qed.

(** With distinct attribute names, what [fields_to_attributes] gives for
    an id is mapped back to that id by [attributes_to_fields]. *)
Lemma init_attributes_round_trip (l : list (string * string))
    (self self' : QueryManager) :
  init_attributes self l = Ok self' ->
  NoDup (map fst l) ->
  (forall a, In a (map fst l) -> attributes_to_fields self !! a = None) ->
  (forall fid a, fields_to_attributes self !! fid = Some a ->
                 attributes_to_fields self !! a = Some fid) ->
  forall fid a, fields_to_attributes self' !! fid = Some a ->
                attributes_to_fields self' !! a = Some fid.
Proof.
  revert self. induction l as [|[name fld] l IH]; intros self.
  - intros [= <-] _ _ Hinv. exact Hinv.
  - cbn [init_attributes map fst]. intros Hrun Hnd Hfresh Hinv.
    apply result_bind_Ok in Hrun as (self1 & H1 & Hrest).
    destruct (init_attribute_Ok _ _ _ _ H1) as (fid & _ & _ & _ & Ha2f & Hf2a).
    apply NoDup_cons in Hnd as [Hname Hnd].
    apply (IH _ Hrest Hnd).
    + intros a Ha. rewrite Ha2f, lookup_insert_ne.
      * apply Hfresh. simpl. auto.
      * intros ->. apply Hname. now apply list_elem_of_In.
    + intros fid' a. rewrite Ha2f, Hf2a.
      destruct (decide (fid = fid')) as [->|Hne].
      * rewrite lookup_insert_eq. intros [= <-]. apply lookup_insert_eq.
      * rewrite (lookup_insert_ne _ fid fid') by assumption. intros Hrev.
        specialize (Hinv _ _ Hrev).
        rewrite lookup_insert_ne; [exact Hinv|].
        intros ->. rewrite (Hfresh a) in Hinv; [discriminate|simpl; auto].
Qed.

(** What [__init__] leaves in the fields it does not loop over. *)
Lemma QueryManager_init_frame (jira : Jira) (arg : SettingsArg) (self : QueryManager) :
  QueryManager_init jira arg = Ok self ->
  jira_fields self = jira_fields_response jira /\
  settings self = settings_update default_settings arg.
Proof.
  unfold QueryManager_init. intros Hinit.
  now apply init_attributes_frame in Hinit.
Qed.

(** X3. After construction from a mapping with distinct attribute
    names, [attributes_to_fields] maps every configured attribute name
    to the id that [field_name_to_id] gives for its configured field
    name. *)
Theorem QueryManager_init_attributes_to_fields
    (jira : Jira) (arg : SettingsArg) (self : QueryManager) (attr fld : string) :
  QueryManager_init jira arg = Ok self ->
  NoDup (map fst (attributes (settings self))) ->
  In (attr, fld) (attributes (settings self)) ->
  exists fid, field_name_to_id self fld = Ok fid /\
              attributes_to_fields self !! attr = Some fid.
Proof.
  intros Hinit Hnd Hin.
  destruct (QueryManager_init_frame _ _ _ Hinit) as [Hdir Hset].
  rewrite Hset in Hnd, Hin. unfold QueryManager_init in Hinit.
  destruct (init_attributes_forward _ _ _ attr fld Hinit Hnd Hin) as (fid & Hfid & Hlook).
  exists fid. split; [|exact Hlook].
  rewrite <- Hfid. apply field_name_to_id_directory. exact Hdir.
Qed.

(** X4. After construction from a mapping with distinct attribute
    names, the two maps agree: the attribute that [fields_to_attributes]
    gives for a field id is mapped back to that id by
    [attributes_to_fields], and every id in [attributes_to_fields] has
    an attribute in [fields_to_attributes]. *)
Theorem QueryManager_init_round_trip
    (jira : Jira) (arg : SettingsArg) (self : QueryManager) (attr fid : string) :
  QueryManager_init jira arg = Ok self ->
  NoDup (map fst (attributes (settings self))) ->
  (fields_to_attributes self !! fid = Some attr ->
     attributes_to_fields self !! attr = Some fid) /\
  (attributes_to_fields self !! attr = Some fid ->
     exists attr', fields_to_attributes self !! fid = Some attr' /\
                   attributes_to_fields self !! attr' = Some fid).
Proof.
  intros Hinit Hnd.
  destruct (QueryManager_init_frame _ _ _ Hinit) as [_ Hset].
  rewrite Hset in Hnd. unfold QueryManager_init in Hinit.
  assert (Hback : forall fid a, fields_to_attributes self !! fid = Some a ->
                                attributes_to_fields self !! a = Some fid).
  { apply (init_attributes_round_trip _ _ _ Hinit Hnd).
    - intros a _. apply lookup_empty.
    - intros fid' a. cbn. rewrite lookup_empty. discriminate. }
  split; [apply Hback|].
  intros Hfwd.
  destruct (init_attributes_reverse_exists _ _ _ Hinit) with (a := attr) (fid := fid)
    as [attr' Hrev]; [|exact Hfwd|].
  - intros a fid'. cbn. rewrite lookup_empty. discriminate.
  - exists attr'. split; [exact Hrev|]. now apply Hback.
Qed.

(** X5. For a configured attribute, [resolve_attribute_value] is the
    lookup of its configured field name followed by
    [resolve_field_value]: it reads the same value as [iter_changes]
    does for that field name. *)
Theorem resolve_attribute_value_configured
    (jira : Jira) (arg : SettingsArg) (self : QueryManager) (issue : Issue)
    (attr fld : string) :
  QueryManager_init jira arg = Ok self ->
  NoDup (map fst (attributes (settings self))) ->
  In (attr, fld) (attributes (settings self)) ->
  resolve_attribute_value self issue attr = current_value self issue fld.
Proof.
  intros Hinit Hnd Hin.
  destruct (QueryManager_init_frame _ _ _ Hinit) as [Hdir Hset].
  rewrite Hset in Hnd, Hin. unfold QueryManager_init in Hinit.
  destruct (init_attributes_forward _ _ _ attr fld Hinit Hnd Hin) as (fid & Hfid & Hlook).
  assert (Hself : field_name_to_id self fld = Ok fid)
    by (rewrite <- Hfid; apply field_name_to_id_directory; exact Hdir).
  unfold resolve_attribute_value, current_value. now rewrite Hlook, Hself.
Qed.

End AttributeMaps.

(** ** More on [resolve_field_value] *)

Lemma find_ext_eq {A : Type} (p q : A -> bool) (l : list A) :
  (forall x, p x = q x) -> find p l = find q l.
Proof.
  intros Hpq. induction l as [|a l IH]; simpl; [reflexivity|].
  now rewrite Hpq, IH.
Qed.

(** A string equals, under [==], nothing but the same string. *)
Lemma py_eq_VStr (y : PyVal) (k : string) : py_eq y (VStr k) = true <-> y = VStr k.
Proof.
  destruct y; simpl; try (split; discriminate).
  rewrite String.eqb_eq. split; [now intros -> | now intros [= ->]].
Qed.

(** [k in values] for a string [k] is membership of that string. *)
Lemma py_in_VStr (k : string) (values : list PyVal) :
  py_in (VStr k) values = true <-> In (VStr k) values.
Proof.
  unfold py_in. rewrite existsb_exists. split.
  - intros (y & Hy & Heq). apply py_eq_VStr in Heq. now subst.
  - intros Hin. exists (VStr k). split; [exact Hin|]. now apply py_eq_VStr.
Qed.

Lemma py_in_Permutation (x : PyVal) (l l' : list PyVal) :
  Permutation l l' -> py_in x l = py_in x l'.
Proof.
  intros Hp. unfold py_in.
  destruct (existsb (fun y => py_eq y x) l') eqn:H'.
  - apply existsb_exists in H' as (y & Hy & Heq).
    apply existsb_exists. exists y. split; [|exact Heq].
    eapply Permutation_in; [symmetry; exact Hp|exact Hy].
  - destruct (existsb (fun y => py_eq y x) l) eqn:Hl; [|reflexivity].
    apply existsb_exists in Hl as (y & Hy & Heq).
    assert (Ht : existsb (fun y => py_eq y x) l' = true).
    { apply existsb_exists. exists y. split; [|exact Heq].
      eapply Permutation_in; [exact Hp|exact Hy]. }
    congruence.
Qed.

Section FieldValueMore.
Context `{PyRuntime}.

(** A list or tuple as the raw value is its own unwrapped value. *)
Lemma select_value_sequence (self : QueryManager) (field_id : string)
    (raw : PyVal) (l : list PyVal) :
  as_sequence raw = Some l -> select_value self field_id raw = pick_value self field_id l.
Proof.
  intros Hseq. unfold select_value.
  assert (Hraw : getattr_default raw "value" raw = raw)
    by (destruct raw; try reflexivity; discriminate).
  now rewrite Hraw, Hseq.
Qed.

(** X6. A field whose value is a [bool], [int], [float], [str] or [bytes]
    resolves to that value unchanged, and so does a field whose value is
    an object with such a value as its [value] attribute, whatever the
    object's [__str__] does. *)
Theorem resolve_field_value_primitive
    (self : QueryManager) (issue : Issue) (field_id : string) (v : PyVal) :
  is_primitive v = true ->
  (getattr_fields (issue_fields issue) field_id = Ok v ->
     resolve_field_value self issue field_id = Ok v) /\
  (forall oid attrs dunder_str,
     getattr_fields (issue_fields issue) field_id = Ok (VObj oid attrs dunder_str) ->
     assoc_lookup "value" attrs = Some v ->
     resolve_field_value self issue field_id = Ok v).
Proof.
  intros Hprim. split.
  - intros Hget.
    rewrite (resolve_field_value_unfold _ _ _ _ Hget)
      by (destruct v; discriminate).
    unfold select_value, coerce.
    assert (Hraw : getattr_default v "value" v = v) by (destruct v; try reflexivity; discriminate).
    rewrite Hraw.
    assert (Hseq : as_sequence v = None) by (destruct v; try reflexivity; discriminate).
    now rewrite Hseq, Hprim.
  - intros oid attrs dunder_str Hget Hvalue.
    rewrite (resolve_field_value_unfold _ _ _ _ Hget) by discriminate.
    unfold select_value, coerce. cbn [getattr_default]. rewrite Hvalue.
    assert (Hseq : as_sequence v = None) by (destruct v; try reflexivity; discriminate).
    now rewrite Hseq, Hprim.
Qed.

(** X7. Whatever [resolve_field_value] returns is [None] (and then the
    field's value is [None]), or a [bool], [int], [float], [str] or
    [bytes], or a value of another type for which [str] raised
    [TypeError]. *)
Theorem resolve_field_value_returns
    (self : QueryManager) (issue : Issue) (field_id : string) (v : PyVal) :
  resolve_field_value self issue field_id = Ok v ->
  (v = VNone /\ getattr_fields (issue_fields issue) field_id = Ok VNone) \/
  is_primitive v = true \/
  (is_primitive v = false /\ py_str v = Raise TypeError).
Proof.
  unfold resolve_field_value.
  destruct (getattr_fields (issue_fields issue) field_id) as [raw|e] eqn:Hget;
    [|discriminate].
  cbn [mbind result_bind].
  assert (Hco : forall x, coerce x = Ok v ->
            is_primitive v = true \/ (is_primitive v = false /\ py_str v = Raise TypeError)).
  { intros x. unfold coerce.
    destruct (is_primitive x) eqn:Hx; [intros [= <-]; auto|].
    destruct (py_str x) as [s|e] eqn:Hs; [intros [= <-]; auto|].
    destruct e; try discriminate. intros [= <-]. auto. }
  destruct raw; try (intros Hv; right; now apply (Hco _ Hv)).
  intros [= <-]. auto.
Qed.

(** X8. [resolve_field_value] raises only what [getattr] raises for a
    field that [issue.fields] does not have, or what [str] raises, other
    than [TypeError], for the value it selected. *)
Theorem resolve_field_value_raises
    (self : QueryManager) (issue : Issue) (field_id : string) (e : Exc) :
  resolve_field_value self issue field_id = Raise e ->
  getattr_fields (issue_fields issue) field_id = Raise e \/
  (exists raw,
     getattr_fields (issue_fields issue) field_id = Ok raw /\
     is_primitive (select_value self field_id raw) = false /\
     py_str (select_value self field_id raw) = Raise e /\
     e <> TypeError).
Proof.
  unfold resolve_field_value.
  destruct (getattr_fields (issue_fields issue) field_id) as [raw|e'] eqn:Hget;
    [|intros [= <-]; auto].
  cbn [mbind result_bind]. intros Hres. right. exists raw. split; [reflexivity|].
  assert (Hco : coerce (select_value self field_id raw) = Raise e)
    by (destruct raw; try exact Hres; discriminate).
  unfold coerce in Hco.
  destruct (is_primitive (select_value self field_id raw)); [discriminate|].
  destruct (py_str (select_value self field_id raw)) as [s|e'']; [discriminate|].
  destruct e''; try (injection Hco as <-; repeat split; discriminate).
  discriminate.
Qed.

(** X9. For a list-valued field of an attribute with known values,
    [resolve_field_value] returns the first known value, in the order of
    the configuration, that is the name of some element of the list. *)
Theorem resolve_field_value_known_first
    (self : QueryManager) (issue : Issue) (field_id attribute_name : string)
    (known pre post : list string) (k : string) (raw : PyVal) (l : list PyVal) :
  fields_to_attributes self !! field_id = Some attribute_name ->
  known_values (settings self) !! attribute_name = Some known ->
  getattr_fields (issue_fields issue) field_id = Ok raw ->
  as_sequence raw = Some l ->
  known = pre ++ k :: post ->
  In (VStr k) (map (fun v => getattr_default v "name" v) l) ->
  Forall (fun k' => ~ In (VStr k') (map (fun v => getattr_default v "name" v) l)) pre ->
  resolve_field_value self issue field_id = Ok (VStr k).
Proof.
  intros Ha Hk Hget Hseq Hknown Hin Hpre.
  rewrite (resolve_field_value_unfold _ _ _ _ Hget)
    by (destruct raw; discriminate).
  rewrite (select_value_sequence _ _ _ _ Hseq).
  destruct l as [|v l]; [destruct Hin|].
  rewrite (proj1 (pick_value_known self field_id attribute_name known v l Ha Hk)
             pre k post Hknown).
  - reflexivity.
  - now apply py_in_VStr.
  - eapply Forall_impl; [exact Hpre|]. intros k' Hk'.
    destruct (py_in (VStr k') _) eqn:Hp; [|reflexivity].
    apply py_in_VStr in Hp. contradiction.
Qed.

Lemma pick_value_Permutation (self : QueryManager) (field_id attribute_name : string)
    (known : list string) (l l' : list PyVal) :
  fields_to_attributes self !! field_id = Some attribute_name ->
  known_values (settings self) !! attribute_name = Some known ->
  Permutation l l' ->
  pick_value self field_id l = pick_value self field_id l'.
Proof.
  intros Ha Hk Hp. unfold pick_value.
  rewrite (Permutation_length Hp).
  destruct (Nat.eqb (length l') 0); [reflexivity|].
  rewrite Ha. cbn [mbind option_bind]. rewrite Hk.
  rewrite (find_ext_eq
             (fun v => py_in (VStr v) (map (fun v0 => getattr_default v0 "name" v0) l))
             (fun v => py_in (VStr v) (map (fun v0 => getattr_default v0 "name" v0) l'))).
  - reflexivity.
  - intros x. apply py_in_Permutation. now apply Permutation_map.
Qed.

(** X10. For a list-valued field of an attribute with known values, the
    order of the elements of the list plays no part: two issues whose
    lists are permutations of each other resolve to the same value. *)
Theorem resolve_field_value_known_order
    (self : QueryManager) (issue issue' : Issue) (field_id attribute_name : string)
    (known : list string) (l l' : list PyVal) :
  fields_to_attributes self !! field_id = Some attribute_name ->
  known_values (settings self) !! attribute_name = Some known ->
  getattr_fields (issue_fields issue) field_id = Ok (VList l) ->
  getattr_fields (issue_fields issue') field_id = Ok (VList l') ->
  Permutation l l' ->
  resolve_field_value self issue field_id = resolve_field_value self issue' field_id.
Proof.
  intros Ha Hk Hget Hget' Hp.
  rewrite (resolve_field_value_unfold _ _ _ _ Hget) by discriminate.
  rewrite (resolve_field_value_unfold _ _ _ _ Hget') by discriminate.
  rewrite (select_value_sequence self field_id (VList l) l eq_refl).
  rewrite (select_value_sequence self field_id (VList l') l' eq_refl).
  now rewrite (pick_value_Permutation self field_id attribute_name known l l' Ha Hk Hp).
Qed.

End FieldValueMore.

(** ** More on [iter_changes] *)

Lemma find_app_first {A : Type} (p : A -> bool) (l1 l2 : list A) :
  find p (l1 ++ l2) =
    match find p l1 with
    | Some x => Some x
    | None => find p l2
    end.
Proof.
  induction l1 as [|a l1 IH]; simpl; [reflexivity|].
  destruct (p a); [reflexivity | exact IH].
Qed.

Lemma find_map_pre {A B : Type} (p : B -> bool) (g : A -> B) (l : list A) :
  find p (map g l) = option_map g (find (fun x => p (g x)) l).
Proof.
  induction l as [|a l IH]; simpl; [reflexivity|].
  destruct (p (g a)); [reflexivity | exact IH].
Qed.

Lemma find_filter_implied {A : Type} (q t : A -> bool) (l : list A) :
  (forall x, q x = true -> t x = true) ->
  find q (List.filter t l) = find q l.
Proof.
  intros Hqt. induction l as [|a l IH]; simpl; [reflexivity|].
  destruct (t a) eqn:Ht; simpl.
  - destruct (q a); [reflexivity | exact IH].
  - destruct (q a) eqn:Hq; [|exact IH].
    rewrite (Hqt a Hq) in Ht. discriminate.
Qed.

Lemma filter_idempotent {A : Type} (t : A -> bool) (l : list A) :
  List.filter t (List.filter t l) = List.filter t l.
Proof.
  induction l as [|a l IH]; simpl; [reflexivity|].
  destruct (t a) eqn:Ht; simpl; [|exact IH]. now rewrite Ht, IH.
Qed.

Lemma for_each_ext_In {X : Type} (l : list X) (body body' : X -> Gen unit) :
  (forall x, In x l -> body x = body' x) -> for_each l body = for_each l body'.
Proof.
  induction l as [|x l IH]; intros Hext; [reflexivity|].
  cbn [for_each]. rewrite (Hext x) by (simpl; auto).
  rewrite IH; [reflexivity|]. intros y Hy. apply Hext. simpl. auto.
Qed.

Lemma for_each_map {X Y : Type} (g : X -> Y) (l : list X) (body : Y -> Gen unit) :
  for_each (map g l) body = for_each l (fun x => body (g x)).
Proof.
  induction l as [|x l IH]; [reflexivity|]. cbn [map for_each]. now rewrite IH.
Qed.

(** An item of a tracked field is a tracked item. *)
Lemma tracked_field (fields : list string) (f : string) (item : ChangeItem) :
  In f fields -> String.eqb (field item) f = true -> tracked fields item = true.
Proof.
  intros Hin Heq. apply String.eqb_eq in Heq. unfold tracked.
  apply existsb_exists. exists f. split; [exact Hin|]. now apply String.eqb_eq.
Qed.

Lemma tracked_In (fields : list string) (item : ChangeItem) :
  tracked fields item = true -> In (field item) fields.
Proof.
  unfold tracked. rewrite existsb_exists. intros (f & Hin & Heq).
  apply String.eqb_eq in Heq. now subst.
Qed.

Section IterChangesMore.
Context `{PyRuntime}.

(** X11. Every snapshot that [iter_changes] yields carries the key of
    the issue, a date in UTC, and as [change] one of the tracked
    fields. *)
Theorem iter_changes_snapshot_invariants
    (self : QueryManager) (issue : Issue) (fields : list string) (s : IssueSnapshot) :
  In s (yielded (iter_changes self issue fields)) ->
  key s = issue_key issue /\ utcoffset (date s) = 0 /\ In (change s) fields.
Proof.
  intros Hs.
  assert (Hcases :
    In s (yielded (for_each fields (initial_snapshot self issue))) \/
    In s (yielded (for_each (histories issue) (history_snapshots issue fields)))).
  { rewrite iter_changes_yielded in Hs.
    destruct (outcome (for_each fields (initial_snapshot self issue))); [|auto].
    now apply in_app_or in Hs. }
  destruct Hcases as [H1|H2].
  - apply for_each_yielded_In in H1 as (f & Hf & Hsf).
    apply initial_snapshot_yields in Hsf as (_ & _ & Hc & Hk & (d & _ & Hd) & _).
    rewrite Hd, Hc. auto.
  - apply for_each_yielded_In in H2 as (h & _ & Hsh).
    rewrite history_snapshots_run in Hsh.
    destruct (dateutil_parse (h_created h)) as [d|e]; [|destruct Hsh].
    cbn [yielded] in Hsh. apply in_map_iff in Hsh as (item & <- & Hitem).
    apply filter_In in Hitem as [_ Ht]. cbn. repeat split.
    now apply tracked_In.
Qed.

Lemma find_chain_without_untracked (fields : list string) (f : string)
    (hs : list History) :
  In f fields ->
  find (fun x => String.eqb (field x) f)
    (concat (map items
       (map (fun h => {| h_created := h_created h;
                         items := List.filter (tracked fields) (items h) |}) hs))) =
  find (fun x => String.eqb (field x) f) (concat (map items hs)).
Proof.
  intros Hin. induction hs as [|h hs IH]; [reflexivity|].
  cbn [map concat items]. rewrite !find_app_first, IH.
  rewrite find_filter_implied; [reflexivity|].
  intros x. now apply tracked_field.
Qed.

(** X12. Changelog items of fields that are not tracked play no part:
    removing them from the issue changes neither what [iter_changes]
    yields nor how it ends. *)
Theorem iter_changes_without_untracked
    (self : QueryManager) (issue : Issue) (fields : list string) :
  iter_changes self (without_untracked fields issue) fields =
  iter_changes self issue fields.
Proof.
  unfold iter_changes.
  assert (H1 : for_each fields (initial_snapshot self (without_untracked fields issue)) =
               for_each fields (initial_snapshot self issue)).
  { apply for_each_ext_In. intros f Hf. rewrite !initial_snapshot_run.
    unfold chain_items.
    change (histories (without_untracked fields issue))
      with (map (fun h => {| h_created := h_created h;
                             items := List.filter (tracked fields) (items h) |})
                (histories issue)).
    rewrite (find_chain_without_untracked fields f (histories issue) Hf).
    reflexivity. }
  assert (H2 : for_each (histories (without_untracked fields issue))
                 (history_snapshots (without_untracked fields issue) fields) =
               for_each (histories issue) (history_snapshots issue fields)).
  { unfold without_untracked at 1. cbn [histories]. rewrite for_each_map.
    apply for_each_ext_In. intros h _. rewrite !history_snapshots_run.
    cbn [h_created items]. now rewrite filter_idempotent. }
  now rewrite H1, H2.
Qed.

End IterChangesMore.

Section IterChangesOrder.
Context `{PyRuntime}.

(** The scan of the first loop finds exactly the first change. *)
Lemma find_first_change_inv (issue : Issue) (f : string) (item : ChangeItem) :
  find (fun h => String.eqb (field h) f) (chain_items issue) = Some item ->
  first_change_of issue f item.
Proof.
  intros Hfind.
  destruct (first_change_or_never issue f) as [[item' Hfirst]|Hnever].
  - rewrite (find_first_change _ _ _ Hfirst) in Hfind. now injection Hfind as <-.
  - rewrite (find_never_changed _ _ Hnever) in Hfind. discriminate.
Qed.

(** The first snapshot of the second loop for a tracked field comes from
    the first changelog item for that field. *)
Lemma second_loop_find (issue : Issue) (fields : list string) (f : string)
    (hs : list History) (s : IssueSnapshot) :
  In f fields ->
  find (fun s' => String.eqb (change s') f)
       (yielded (for_each hs (history_snapshots issue fields))) = Some s ->
  exists item,
    find (fun x => String.eqb (field x) f) (concat (map items hs)) = Some item /\
    from_string s = fromString item /\ to_string s = toString item.
Proof.
  intros Hin. induction hs as [|h hs IH]; [discriminate|].
  rewrite for_each_cons_yielded, history_snapshots_run.
  cbn [map concat]. rewrite find_app_first.
  destruct (dateutil_parse (h_created h)) as [d|e]; [|discriminate].
  cbn [outcome yielded]. rewrite find_app_first, find_map_pre. cbn [change IssueSnapshot_init].
  rewrite (find_filter_implied (fun x => String.eqb (field x) f) (tracked fields))
    by (intros x; now apply tracked_field).
  destruct (find (fun x => String.eqb (field x) f) (items h)) as [item|].
  - cbn [option_map]. intros [= <-]. exists item. auto.
  - cbn [option_map]. exact IH.
Qed.

(** X13. The snapshots of a tracked field link up: the first snapshot
    that [iter_changes] yields for it after the initial ones has as
    [from_string] the [to_string] of its initial snapshot. *)
Theorem iter_changes_first_change_links
    (self : QueryManager) (issue : Issue) (fields : list string)
    (i : nat) (f : string) (s0 s : IssueSnapshot) :
  fields !! i = Some f ->
  yielded (iter_changes self issue fields) !! i = Some s0 ->
  find (fun s' => String.eqb (change s') f)
       (drop (length fields) (yielded (iter_changes self issue fields))) = Some s ->
  from_string s = to_string s0.
Proof.
  intros Hf Hs0 Hs.
  assert (Hin : In f fields).
  { apply list_elem_of_In. eapply list_elem_of_lookup_2. exact Hf. }
  rewrite iter_changes_yielded in Hs0, Hs.
  destruct (first_loop_length self issue fields) as [Hle Heq].
  destruct (outcome (for_each fields (initial_snapshot self issue))) as [[]|e].
  - rewrite <- Heq in Hs by reflexivity. rewrite drop_app_length in Hs.
    rewrite lookup_app_l in Hs0
      by (rewrite Heq by reflexivity; now apply lookup_lt_Some in Hf).
    apply first_loop_lookup in Hs0 as (f' & Hf' & Hspec).
    rewrite Hf in Hf'. injection Hf' as <-.
    destruct (second_loop_find _ _ _ _ _ Hin Hs) as (item & Hfind & Hfrom & _).
    destruct Hspec as (_ & _ & _ & _ & Hfirst & _).
    rewrite Hfrom. symmetry. apply Hfirst. now apply find_first_change_inv.
  - rewrite drop_ge in Hs by exact Hle. discriminate.
Qed.

(** X14. With no tracked field, [iter_changes] yields nothing; it still
    parses the timestamp of every history, and finishes exactly when
    they all parse. *)
Theorem iter_changes_no_fields (self : QueryManager) (issue : Issue) :
  yielded (iter_changes self issue []) = [] /\
  (outcome (iter_changes self issue []) = Ok tt <->
   Forall (fun h => exists d, dateutil_parse (h_created h) = Ok d) (histories issue)).
Proof.
  split.
  - destruct (yielded (iter_changes self issue [])) as [|s l] eqn:Hy; [reflexivity|].
    assert (Hs : In s (yielded (iter_changes self issue []))) by (rewrite Hy; simpl; auto).
    apply iter_changes_snapshot_invariants in Hs as (_ & _ & []).
  - rewrite iter_changes_outcome. cbn [for_each]. cbn.
    apply second_loop_outcome_Ok.
Qed.



Lemma second_loop_length (issue : Issue) (fields : list string) (hs : list History) :
  (length (yielded (for_each hs (history_snapshots issue fields))) <=
   length (flat_map (fun h => map (fun item => (h, item))
                                (List.filter (tracked fields) (items h))) hs))%nat.
Proof.
  induction hs as [|h hs IH]; [simpl; lia|].
  rewrite for_each_cons_yielded, history_snapshots_run. cbn [flat_map].
  rewrite length_app, length_map.
  destruct (dateutil_parse (h_created h)) as [d|e]; cbn [outcome yielded].
  - rewrite length_app, length_map. lia.
  - simpl. lia.
Qed.

(** X16. However it ends, [iter_changes] yields at most one snapshot per
    tracked field and one per tracked changelog item. *)
Theorem iter_changes_length_bound
    (self : QueryManager) (issue : Issue) (fields : list string) :
  (length (yielded (iter_changes self issue fields)) <=
   length fields + length (tracked_changes issue fields))%nat.
Proof.
  rewrite iter_changes_yielded.
  destruct (first_loop_length self issue fields) as [Hle _].
  pose proof (second_loop_length issue fields (histories issue)) as H2.
  unfold tracked_changes.
  destruct (outcome (for_each fields (initial_snapshot self issue))).
  - rewrite length_app. lia.
  - lia.
Qed.

End IterChangesOrder.

(** ** More on the equality of snapshots *)

Lemma SFeqb_sym (x y : spec_float) : SFeqb x y = SFeqb y x.
Proof.
  unfold SFeqb, SFcompare.
  destruct x as [sx|sx| |sx mx ex], y as [sy|sy| |sy my ey];
    try reflexivity; try (destruct sx, sy; reflexivity);
    try (destruct sx; reflexivity); try (destruct sy; reflexivity).
  rewrite (Z.compare_antisym ex ey).
  assert (Hm : Pos.compare_cont Eq my mx = CompOpp (Pos.compare_cont Eq mx my))
    by (symmetry; apply (Pos.compare_cont_antisym mx my Eq)).
  rewrite Hm.
  destruct sx, sy; try reflexivity;
    destruct (ex ?= ey); cbn [CompOpp]; try reflexivity;
    destruct (Pos.compare_cont Eq mx my); reflexivity.
Qed.

(** Python's [==] on the embedded values is symmetric. *)
Lemma py_eq_sym : forall a b : PyVal, py_eq a b = py_eq b a.
Proof.
  fix IH 1. intros a b.
  destruct a, b; try reflexivity; cbn.
  - destruct b, b0; reflexivity.
  - apply Z.eqb_sym.
  - apply Z.eqb_sym.
  - apply Z.eqb_sym.
  - apply SFeqb_sym.
  - apply String.eqb_sym.
  - unfold bytes_eqb. apply String.eqb_sym.
  - revert l l0. fix IHl 1. intros l l0.
    destruct l as [|x l], l0 as [|y l0]; try reflexivity.
    rewrite (IH x y), (IHl l l0). reflexivity.
  - revert l l0. fix IHl 1. intros l l0.
    destruct l as [|x l], l0 as [|y l0]; try reflexivity.
    rewrite (IH x y), (IHl l l0). reflexivity.
  - apply Nat.eqb_sym.
Qed.

Section SnapshotEqualityMore.
Context `{PyRuntime}.

(** X17. [__eq__] is symmetric: [a == b] and [b == a] give the same
    answer for any two snapshots. *)
Theorem IssueSnapshot_eq_sym (self other : IssueSnapshot) :
  IssueSnapshot_eq self other = IssueSnapshot_eq other self.
Proof.
  unfold IssueSnapshot_eq. cbn [forallb].
  rewrite (String.eqb_sym (change self)), (String.eqb_sym (key self)).
  rewrite (String.eqb_sym (isoformat (date self))).
  now rewrite (py_eq_sym (from_string self)), (py_eq_sym (to_string self)).
Qed.

(** X18. Two snapshots built by [__init__] with the same field, key and
    values (strings or [None]) from datetimes that denote the same
    instant are equal under [__eq__], whatever zones the datetimes were
    given in. *)
Theorem IssueSnapshot_eq_same_instant
    (change key : string) (d1 d2 : datetime) (from_string to_string : PyVal) :
  instant d1 = instant d2 ->
  textual from_string ->
  textual to_string ->
  IssueSnapshot_eq (IssueSnapshot_init change key d1 from_string to_string)
                   (IssueSnapshot_init change key d2 from_string to_string) = true.
Proof.
  intros Hinst Hfrom Hto.
  unfold IssueSnapshot_eq, IssueSnapshot_init, astimezone_utc. cbn.
  rewrite Hinst, !String.eqb_refl.
  rewrite (proj2 (py_eq_textual _ _ Hfrom Hfrom) eq_refl).
  rewrite (proj2 (py_eq_textual _ _ Hto Hto) eq_refl).
  reflexivity.
Qed.

End SnapshotEqualityMore.

(** ** The further properties on the sample data *)

Lemma sample_attribute_names_distinct :
  NoDup (map fst (attributes (settings sample_manager))).
Proof. apply (bool_decide_unpack _). vm_compute. exact I. Qed.

(** [Story Pts] is the first configured field name without a directory
    entry. *)
Lemma QueryManager_init_first_unknown_witness :
  QueryManager_init (H := sample_runtime) sample_jira unknown_field_settings =
    Raise (ConfigError
      "JIRA field with name `Story Pts` does not exist (did you try to use the field id instead?)").
Proof.
  apply (QueryManager_init_first_unknown (H := sample_runtime)
           sample_jira unknown_field_settings
           [ ("Team"%string, "Team"%string) ] [] "Points" "Story Pts").
  - reflexivity.
  - constructor; [|constructor].
    exists (mk_JiraField "customfield_10001" "Team").
    split; [simpl; tauto | vm_compute; reflexivity].
  - simpl. intros f Hf. unfold name_matches.
    repeat (destruct Hf as [<-|Hf]; [vm_compute; discriminate|]). destruct Hf.
Defined.

(** [Release] is configured as [fix version/s], the field
    [fixVersions]. *)
Lemma QueryManager_init_attributes_to_fields_witness :
  exists fid,
    field_name_to_id (H := sample_runtime) sample_manager "fix version/s" = Ok fid /\
    attributes_to_fields sample_manager !! "Release"%string = Some fid.
Proof.
  apply (QueryManager_init_attributes_to_fields (H := sample_runtime)
           sample_jira sample_settings sample_manager "Release" "fix version/s").
  - vm_compute. reflexivity.
  - exact sample_attribute_names_distinct.
  - simpl. tauto.
Defined.

Lemma QueryManager_init_round_trip_witness :
  attributes_to_fields sample_manager !! "Tags"%string = Some "labels"%string.
Proof.
  apply (proj1 (QueryManager_init_round_trip (H := sample_runtime)
                  sample_jira sample_settings sample_manager "Tags" "labels"
                  ltac:(vm_compute; reflexivity) sample_attribute_names_distinct)).
  vm_compute. reflexivity.
Defined.

Lemma resolve_attribute_value_configured_witness :
  resolve_attribute_value (H := sample_runtime) sample_manager issue_unchanged "Type" =
  current_value (H := sample_runtime) sample_manager issue_unchanged "Issue type".
Proof.
  apply (resolve_attribute_value_configured (H := sample_runtime)
           sample_jira sample_settings).
  - vm_compute. reflexivity.
  - exact sample_attribute_names_distinct.
  - simpl. tauto.
Defined.

(** [customfield_10001] wraps the string [Team 1]. *)
Lemma resolve_field_value_primitive_witness :
  resolve_field_value (H := sample_runtime) sample_manager issue_unchanged
    "customfield_10001" = Ok (VStr "Team 1").
Proof.
  refine (proj2 (resolve_field_value_primitive (H := sample_runtime)
                   sample_manager issue_unchanged "customfield_10001" (VStr "Team 1") _)
            2%nat [ ("value"%string, VStr "Team 1") ] (Ok "Team 1"%string) _ _).
  - reflexivity.
  - vm_compute. reflexivity.
  - reflexivity.
Defined.

Lemma resolve_field_value_returns_witness :
  (VStr "Done" = VNone /\
   getattr_fields (issue_fields issue_unchanged) "status" = Ok VNone) \/
  is_primitive (VStr "Done") = true \/
  (is_primitive (VStr "Done") = false /\
   py_str (H := sample_runtime) (VStr "Done") = Raise TypeError).
Proof.
  apply (resolve_field_value_returns (H := sample_runtime)
           sample_manager issue_unchanged "status").
  vm_compute. reflexivity.
Defined.

Lemma resolve_field_value_raises_witness :
  getattr_fields (issue_fields issue_unchanged) "customfield_10004" = Raise ValueError \/
  (exists raw,
     getattr_fields (issue_fields issue_unchanged) "customfield_10004" = Ok raw /\
     is_primitive (select_value sample_manager "customfield_10004" raw) = false /\
     py_str (H := sample_runtime) (select_value sample_manager "customfield_10004" raw)
       = Raise ValueError /\
     ValueError <> TypeError).
Proof.
  apply (resolve_field_value_raises (H := sample_runtime)
           sample_manager issue_unchanged "customfield_10004").
  vm_compute. reflexivity.
Defined.

(** [Feature] comes first among the known values of [Type]. *)
Lemma resolve_field_value_known_first_witness :
  resolve_field_value (H := sample_runtime) sample_manager issue_unchanged "issuetype"
  = Ok (VStr "Feature").
Proof.
  apply (resolve_field_value_known_first (H := sample_runtime)
           sample_manager issue_unchanged "issuetype" "Type"
           [ "Feature"%string; "Bug"%string ] [] [ "Bug"%string ] "Feature"
           (VList [ VStr "Bug"; VStr "Feature" ]) [ VStr "Bug"; VStr "Feature" ]).
  - vm_compute. reflexivity.
  - vm_compute. reflexivity.
  - vm_compute. reflexivity.
  - reflexivity.
  - reflexivity.
  - simpl. tauto.
  - constructor.
Defined.

Lemma resolve_field_value_known_order_witness :
  resolve_field_value (H := sample_runtime) sample_manager issue_unchanged "issuetype" =
  resolve_field_value (H := sample_runtime) sample_manager issue_reordered "issuetype".
Proof.
  apply (resolve_field_value_known_order (H := sample_runtime)
           sample_manager issue_unchanged issue_reordered "issuetype" "Type"
           [ "Feature"%string; "Bug"%string ]
           [ VStr "Bug"; VStr "Feature" ] [ VStr "Feature"; VStr "Bug" ]).
  - vm_compute. reflexivity.
  - vm_compute. reflexivity.
  - vm_compute. reflexivity.
  - vm_compute. reflexivity.
  - apply perm_swap.
Defined.

Lemma iter_changes_snapshot_invariants_witness :
  key sample_initial_snapshot = issue_key issue_changed /\
  utcoffset (date sample_initial_snapshot) = 0 /\
  In (change sample_initial_snapshot) [ "status"%string ].
Proof.
  apply (iter_changes_snapshot_invariants (H := sample_runtime)
           sample_manager issue_changed [ "status"%string ]).
  vm_compute. left. reflexivity.
Defined.

(** The first change of [status] on [issue_changed] starts from
    [To Do], the value of the initial snapshot. *)
Lemma iter_changes_first_change_links_witness :
  VStr "To Do" = to_string sample_initial_snapshot.
Proof.
  apply (iter_changes_first_change_links (H := sample_runtime)
           sample_manager issue_changed [ "status"%string ] 0 "status"
           sample_initial_snapshot
           {| change := "status"; key := "ISSUE-1";
              date := mk_datetime 1577923200000000 0;
              from_string := VStr "To Do"; to_string := VStr "In Progress" |}).
  - reflexivity.
  - vm_compute. reflexivity.
  - vm_compute. reflexivity.
Defined.


(** Midnight UTC and one o'clock at one hour east are the same
    instant. *)
Lemma IssueSnapshot_eq_same_instant_witness :
  IssueSnapshot_eq (H := sample_runtime)
    (IssueSnapshot_init "status" "ISSUE-1" (mk_datetime 1577836800000000 0)
       VNone (VStr "To Do"))
    (IssueSnapshot_init "status" "ISSUE-1" (mk_datetime 1577836800000000 3600)
       VNone (VStr "To Do")) = true.
Proof.
  apply (IssueSnapshot_eq_same_instant (H := sample_runtime)).
  - reflexivity.
  - left. reflexivity.
  - right. eexists. reflexivity.
Defined.

(** ** Printing and equality *)

Section ReprProperties.
Context `{PyRuntime}.
Variable primitive_str : PyVal -> string.

Lemma format_s_textual (v : PyVal) :
  textual v -> exists text, format_s primitive_str v = Ok text.
Proof. intros [->|[s ->]]; simpl; eauto. Qed.

(** X19. Two snapshots that are equal under [__eq__], with values that
    are strings or [None], print the same under [__repr__], and printing
    them does not raise. *)
Theorem IssueSnapshot_repr_of_equal (a b : IssueSnapshot) :
  textual (from_string a) -> textual (from_string b) ->
  textual (to_string a) -> textual (to_string b) ->
  IssueSnapshot_eq a b = true ->
  exists text,
    IssueSnapshot_repr primitive_str a = Ok text /\
    IssueSnapshot_repr primitive_str b = Ok text.
Proof.
  intros Hfa Hfb Hta Htb Heq.
  unfold IssueSnapshot_eq in Heq. cbn [forallb] in Heq.
  rewrite !andb_true_iff, !String.eqb_eq in Heq.
  destruct Heq as (Hc & Hk & Hd & Hf & Ht & _).
  apply (py_eq_textual _ _ Hfa Hfb) in Hf.
  apply (py_eq_textual _ _ Hta Htb) in Ht.
  unfold IssueSnapshot_repr. rewrite <- Hc, <- Hk, <- Hd, <- Hf, <- Ht.
  destruct (format_s_textual _ Hfa) as [ft ->].
  destruct (format_s_textual _ Hta) as [tt' ->].
  cbn. eauto.
Qed.

(** X20. [__repr__] does not tell [None] from the string ['None']: a
    snapshot whose [to_string] is [None] prints like the snapshot that
    has ['None'] there, although [__eq__] tells the two apart. *)
Theorem IssueSnapshot_repr_None (s : IssueSnapshot) :
  to_string s = VNone ->
  let s' := {| change := change s; key := key s; date := date s;
               from_string := from_string s; to_string := VStr "None" |} in
  IssueSnapshot_repr primitive_str s' = IssueSnapshot_repr primitive_str s /\
  IssueSnapshot_eq s s' = false.
Proof.
  intros Hto s'. split.
  - unfold IssueSnapshot_repr, s'. cbn [to_string from_string change key date].
    rewrite Hto. reflexivity.
  - unfold IssueSnapshot_eq, s'. cbn [forallb to_string]. rewrite Hto. cbn.
    now rewrite !andb_false_r.
Qed.

End ReprProperties.

Section SecondLoopFailure.
Context `{PyRuntime}.




End SecondLoopFailure.

(** The two sample snapshots print alike. *)
Lemma IssueSnapshot_repr_of_equal_witness :
  exists text,
    IssueSnapshot_repr (H := sample_runtime) sample_primitive_str sample_initial_snapshot
      = Ok text /\
    IssueSnapshot_repr (H := sample_runtime) sample_primitive_str
      sample_initial_snapshot_east = Ok text.
Proof.
  apply (IssueSnapshot_repr_of_equal (H := sample_runtime) sample_primitive_str
           sample_initial_snapshot sample_initial_snapshot_east);
    try (left; reflexivity); try (right; eexists; reflexivity).
  vm_compute. reflexivity.
Defined.

(** The initial snapshot of [labels], were its value [None], would print
    like the one [iter_changes] yields. *)
Lemma IssueSnapshot_repr_None_witness :
  IssueSnapshot_repr (H := sample_runtime) sample_primitive_str
    {| change := "labels"; key := "ISSUE-1"; date := mk_datetime 1577836800000000 0;
       from_string := VNone; to_string := VStr "None" |} =
  IssueSnapshot_repr (H := sample_runtime) sample_primitive_str
    {| change := "labels"; key := "ISSUE-1"; date := mk_datetime 1577836800000000 0;
       from_string := VNone; to_string := VNone |}.
Proof.
  apply (proj1 (IssueSnapshot_repr_None (H := sample_runtime) sample_primitive_str
                  {| change := "labels"; key := "ISSUE-1";
                     date := mk_datetime 1577836800000000 0;
                     from_string := VNone; to_string := VNone |} eq_refl)).
Defined.


(** ** When [iter_changes] raises *)

Section IterChangesErrors.
Context `{PyRuntime}.





End IterChangesErrors.

